(** * is_sorted.py: checking that a sequence is sorted

    A shallow embedding of [is_sorted.py] and of the part of the Python
    run time it relies on (rich comparison of built-in values, [all],
    [zip], [range], indexing, list iterators), followed by the properties
    of the checkers.

    Layout:
    - [result]: Python calls that either return or raise;
    - [value]: the built-in values a sequence may hold, with [py_eq] and
      the four ordering operators [py_lt], [py_le], [py_gt], [py_ge];
    - the functions of the module, under their own names;
    - an operational reading of the two public checkers over a store of
      list objects, used for the purity property;
    - lemmas, then one theorem per property. *)

From Stdlib Require Import List ZArith Bool String Ascii Lia.
From Stdlib Require Import Sorted RelationClasses OrderedTypeEx DecimalString.
Import ListNotations.

(* ------------------------------------------------------------------ *)
(** ** Calls that may raise *)

(** The exceptions that can surface from a call.  [TypeError] is what the
    ordering operators raise on operands that cannot be ordered;
    [IndexError] and [KeyError] come from subscripting; [UserError] stands
    for whatever else a caller-supplied key function may raise,
    [StopIteration] excepted: a generator expression hands that one to
    its caller as [RuntimeError], and neither is modelled. *)
Inductive exn : Type :=
| TypeError
| IndexError
| KeyError
| UserError (tag : string).

Inductive result (A : Type) : Type :=
| Ok (a : A)
| Raise (e : exn).

Arguments Ok {A} a.
Arguments Raise {A} e.

Definition bind {A B : Type} (c : result A) (k : A -> result B) : result B :=
  match c with
  | Ok a => k a
  | Raise e => Raise e
  end.

Notation "x <- c ;; k" := (bind c (fun x => k))
  (at level 61, c at next level, right associativity).

(* ------------------------------------------------------------------ *)
(** ** Built-in values *)

(** [None], [bool], [int], [str] (code points below 256), [list], [tuple]
    and [dict] with [str] keys.  Floats and instances of user classes are
    not part of the model. *)
Unset Elimination Schemes.
Inductive value : Type :=
| VNone
| VBool (b : bool)
| VInt (n : Z)
| VStr (s : string)
| VList (items : list value)
| VTuple (items : list value)
| VDict (items : list (string * value)).
Set Elimination Schemes.

(** Induction over nested values: the elements of a list, of a tuple and
    the values stored in a dict all satisfy the predicate. *)
Section ValueInd.
Variable P : value -> Prop.
Hypothesis HNone : P VNone.
Hypothesis HBool : forall b, P (VBool b).
Hypothesis HInt : forall n, P (VInt n).
Hypothesis HStr : forall s, P (VStr s).
Hypothesis HList : forall l, Forall P l -> P (VList l).
Hypothesis HTuple : forall l, Forall P l -> P (VTuple l).
Hypothesis HDict : forall d, Forall (fun kv => P (snd kv)) d -> P (VDict d).

Fixpoint value_ind (v : value) : P v :=
  let fix items_ind (l : list value) : Forall P l :=
    match l with
    | [] => Forall_nil _
    | x :: l' => Forall_cons x (value_ind x) (items_ind l')
    end in
  let fix bindings_ind (d : list (string * value))
      : Forall (fun kv => P (snd kv)) d :=
    match d with
    | [] => Forall_nil _
    | kv :: d' =>
        Forall_cons (P := fun kv => P (snd kv)) kv
          (value_ind (snd kv)) (bindings_ind d')
    end in
  match v with
  | VNone => HNone
  | VBool b => HBool b
  | VInt n => HInt n
  | VStr s => HStr s
  | VList l => HList l (items_ind l)
  | VTuple l => HTuple l (items_ind l)
  | VDict d => HDict d (bindings_ind d)
  end.
End ValueInd.

(** [x is None]. *)
Definition is_None (x : value) : bool :=
  match x with
  | VNone => true
  | _ => false
  end.

(** The four ordering operators, and how each reads a three-way
    comparison of the operands. *)
Inductive cmp_op : Type := OpLt | OpLe | OpGt | OpGe.

Definition test_op (op : cmp_op) (c : comparison) : bool :=
  match op, c with
  | OpLt, Lt => true
  | OpLe, (Lt | Eq) => true
  | OpGt, Gt => true
  | OpGe, (Gt | Eq) => true
  | _, _ => false
  end.

(** The operator seen from the right operand: [x < y] is [y > x]. *)
Definition swap_op (op : cmp_op) : cmp_op :=
  match op with
  | OpLt => OpGt
  | OpLe => OpGe
  | OpGt => OpLt
  | OpGe => OpLe
  end.

Section Sequences.
Variable eqv : value -> value -> bool.

(** [==] on lists and tuples: same length, equal items. *)
Fixpoint seq_eq (xs ys : list value) : bool :=
  match xs, ys with
  | [], [] => true
  | a :: xs', b :: ys' => eqv a b && seq_eq xs' ys'
  | _, _ => false
  end.

(** [==] on dicts: the two hold the same bindings, whatever the order
    of insertion. *)
Definition dict_eq (d e : list (string * value)) : bool :=
  forallb (fun kv =>
    existsb (fun kv' =>
      String.eqb (fst kv) (fst kv') && eqv (snd kv) (snd kv')) e) d
  &&
  forallb (fun kv' =>
    existsb (fun kv =>
      String.eqb (fst kv) (fst kv') && eqv (snd kv) (snd kv')) d) e.

Variable cmp : value -> value -> result bool.
Variable op : cmp_op.

(** Ordering of lists and tuples: the first pair of items that are not
    equal decides, with the operator applied to those two items; when
    one sequence is a prefix of the other, the sizes decide. *)
Fixpoint seq_compare (xs ys : list value) : result bool :=
  match xs, ys with
  | a :: xs', b :: ys' => if eqv a b then seq_compare xs' ys' else cmp a b
  | _, _ => Ok (test_op op (Nat.compare (List.length xs) (List.length ys)))
  end.
End Sequences.

(** [x == y] on built-in values; it never raises. *)
Fixpoint py_eq (x y : value) {struct x} : bool :=
  match x, y with
  | VNone, VNone => true
  | VBool a, VBool b => Z.eqb (Z.b2z a) (Z.b2z b)
  | VBool a, VInt n => Z.eqb (Z.b2z a) n
  | VInt m, VBool b => Z.eqb m (Z.b2z b)
  | VInt m, VInt n => Z.eqb m n
  | VStr s, VStr t => String.eqb s t
  | VList xs, VList ys => seq_eq py_eq xs ys
  | VTuple xs, VTuple ys => seq_eq py_eq xs ys
  | VDict d, VDict e => dict_eq py_eq d e
  | _, _ => false
  end.

(** [x op y] for an ordering operator: numbers by value, strings
    lexicographically, lists with lists and tuples with tuples item by
    item; every other pairing raises [TypeError]. *)
Fixpoint py_compare (op : cmp_op) (x y : value) {struct x} : result bool :=
  match x, y with
  | VBool a, VBool b => Ok (test_op op (Z.compare (Z.b2z a) (Z.b2z b)))
  | VBool a, VInt n => Ok (test_op op (Z.compare (Z.b2z a) n))
  | VInt m, VBool b => Ok (test_op op (Z.compare m (Z.b2z b)))
  | VInt m, VInt n => Ok (test_op op (Z.compare m n))
  | VStr s, VStr t => Ok (test_op op (String.compare s t))
  | VList xs, VList ys => seq_compare py_eq (py_compare op) op xs ys
  | VTuple xs, VTuple ys => seq_compare py_eq (py_compare op) op xs ys
  | _, _ => Raise TypeError
  end.

Definition py_lt : value -> value -> result bool := py_compare OpLt.
Definition py_le : value -> value -> result bool := py_compare OpLe.
Definition py_gt : value -> value -> result bool := py_compare OpGt.
Definition py_ge : value -> value -> result bool := py_compare OpGe.

(* ------------------------------------------------------------------ *)
(** ** Built-in functions used by the module *)

(** [all(g)] over a generator [g]: the items are computed one at a time,
    so each is a computation that returns or raises; the first false
    item or the first exception ends the call. *)
Fixpoint py_all (g : list (result bool)) : result bool :=
  match g with
  | [] => Ok true
  | c :: g' => b <- c ;; if b then py_all g' else Ok false
  end.

(** [len(lst)], an [int]. *)
Definition len (lst : list value) : Z := Z.of_nat (List.length lst).

(** [range(n)]: empty when [n <= 0]. *)
Definition range (n : Z) : list Z := map Z.of_nat (seq 0 (Z.to_nat n)).

(** [lst[i]]: a negative index counts from the end, and an index outside
    the sequence raises [IndexError]. *)
Definition getitem (lst : list value) (i : Z) : result value :=
  let j := if (i <? 0)%Z then (i + len lst)%Z else i in
  if (j <? 0)%Z then Raise IndexError
  else match nth_error lst (Z.to_nat j) with
       | Some v => Ok v
       | None => Raise IndexError
       end.

(** [lst[1:]]. *)
Definition slice_from_1 (lst : list value) : list value := skipn 1 lst.

(** [zip(xs, ys)] stops at the shorter argument. *)
Definition zip (xs ys : list value) : list (value * value) := combine xs ys.

(** [next(it, default)] on an iterator over the remaining items. *)
Definition next_default (it : list value) (default : value)
  : value * list value :=
  match it with
  | [] => (default, [])
  | x :: it' => (x, it')
  end.

(** [e[k]] for a [str] subscript [k]. *)
Definition subscript (e : value) (k : string) : result value :=
  match e with
  | VDict d =>
      match find (fun kv => String.eqb (fst kv) k) d with
      | Some kv => Ok (snd kv)
      | None => Raise KeyError
      end
  | _ => Raise TypeError
  end.

(** [itertools.pairwise] of Python 3.10 and later: every pair of
    consecutive items, in order. *)
Fixpoint itertools_pairwise (iterable : list value) : list (value * value) :=
  match iterable with
  | a :: ((b :: _) as rest) => (a, b) :: itertools_pairwise rest
  | _ => []
  end.

(* ------------------------------------------------------------------ *)
(** ** The module *)

(** The [for b in it: yield a, b; a = b] loop of [_pairwise]. *)
Fixpoint _pairwise_loop (a : value) (it : list value)
  : list (value * value) :=
  match it with
  | [] => []
  | b :: it' => (a, b) :: _pairwise_loop b it'
  end.

(** [_pairwise(iterable)]: the pairs it yields. *)
Definition _pairwise (iterable : list value) : list (value * value) :=
  let it := iterable in
  let '(a, it) := next_default it VNone in
  if is_None a then [] else _pairwise_loop a it.

(** The outcome of [from itertools import pairwise] when the module is
    loaded: it succeeds on Python 3.10 and later. *)
Inductive import_outcome : Type := Imported | ImportError.

(** The module-level name [pairwise]. *)
Definition pairwise (imp : import_outcome)
  : list value -> list (value * value) :=
  match imp with
  | Imported => itertools_pairwise
  | ImportError => _pairwise
  end.

(** A key function is a pure Python callable: it returns or raises. *)
Definition key_fn : Type := value -> result value.

(** [key] after [if key is None: key = lambda x: x]. *)
Definition key_or_identity (key : option key_fn) : key_fn :=
  match key with
  | None => fun x => Ok x
  | Some k => k
  end.

(** [lambda x, y: x < y if strict else x <= y]. *)
Definition compare_ascending (strict : bool) (x y : value) : result bool :=
  if strict then py_lt x y else py_le x y.

(** [lambda x, y: x > y if strict else x >= y]. *)
Definition compare_descending (strict : bool) (x y : value) : result bool :=
  if strict then py_gt x y else py_ge x y.

(** [compare(key(x), key(y))], the item of the generator for the pair
    [(x, y)]: the two keys are computed, left then right, then
    compared. *)
Definition keyed_compare (compare : value -> value -> result bool)
    (key : key_fn) (p : value * value) : result bool :=
  let '(x, y) := p in
  kx <- key x ;; ky <- key y ;; compare kx ky.

Definition is_sorted_ascending (imp : import_outcome) (lst : list value)
    (strict : bool) (key : option key_fn) : result bool :=
  let key := key_or_identity key in
  let compare := compare_ascending strict in
  py_all (map (keyed_compare compare key) (pairwise imp lst)).

Definition is_sorted_descending (imp : import_outcome) (lst : list value)
    (strict : bool) (key : option key_fn) : result bool :=
  let key := key_or_identity key in
  let compare := compare_descending strict in
  py_all (map (keyed_compare compare key) (pairwise imp lst)).

Definition is_sorted_ascending_zip (lst : list value) (strict : bool)
  : result bool :=
  let compare := compare_ascending strict in
  py_all (map (fun '(x, y) => compare x y) (zip lst (slice_from_1 lst))).

(** The body of the [for i in ...] loop of [is_sorted_ascending_loop],
    over the indices still to visit. *)
Fixpoint for_each_index (compare : value -> value -> result bool)
    (lst : list value) (indices : list Z) : result bool :=
  match indices with
  | [] => Ok true
  | i :: indices' =>
      a <- getitem lst i ;;
      b <- getitem lst (i + 1)%Z ;;
      c <- compare a b ;;
      if negb c then Ok false else for_each_index compare lst indices'
  end.

Definition is_sorted_ascending_loop (lst : list value) (strict : bool)
  : result bool :=
  let compare := compare_ascending strict in
  for_each_index compare lst (range (len lst - 1)%Z).

Definition is_sorted_ascending_range (lst : list value) (strict : bool)
  : result bool :=
  let compare := compare_ascending strict in
  py_all (map (fun i =>
                 a <- getitem lst i ;;
                 b <- getitem lst (i + 1)%Z ;;
                 compare a b)
              (range (len lst - 1)%Z)).

(* ------------------------------------------------------------------ *)
(** ** The demo run by [python is_sorted.py] *)

(** [repr(n)] for an [int]: its decimal digits, with a minus sign when
    negative. *)
Definition repr_int (n : Z) : string := NilZero.string_of_int (Z.to_int n).

(** [repr(lst)] for a list of [int]s. *)
Definition repr_int_list (lst : list Z) : string :=
  ("[" ++ String.concat ", " (map repr_int lst) ++ "]")%string.

(** A [bool] formatted in an f-string. *)
Definition str_bool (b : bool) : string :=
  if b then "True"%string else "False"%string.

Definition test_lists : list (list Z) :=
  [ [1; 2; 3; 4]; [1; 3; 2; 4]; [5; 5; 5]; []; [42]; [10; 8; 8; 5; 2] ]%Z.

(** One round of the demo loop: the three calls, then the line handed to
    [print]. *)
Definition demo_round (imp : import_outcome) (lst : list Z) : result string :=
  asc <- is_sorted_ascending imp (map VInt lst) false None ;;
  asc_strict <- is_sorted_ascending imp (map VInt lst) true None ;;
  desc <- is_sorted_descending imp (map VInt lst) false None ;;
  Ok (repr_int_list lst ++ ": ascending=" ++ str_bool asc
      ++ " (strict=" ++ str_bool asc_strict
      ++ "), descending=" ++ str_bool desc)%string.

(** The [for lst in test_lists] loop: the lines printed so far and, when
    a call raised, the exception that ended the program. *)
Fixpoint demo_loop (imp : import_outcome) (lists : list (list Z))
    (printed : list string) : list string * option exn :=
  match lists with
  | [] => (printed, None)
  | lst :: lists' =>
      match demo_round imp lst with
      | Ok line => demo_loop imp lists' (printed ++ [line])
      | Raise e => (printed, Some e)
      end
  end.

(** The [if __name__ == "__main__":] block. *)
Definition main (imp : import_outcome) : list string * option exn :=
  demo_loop imp test_lists [].

(* ------------------------------------------------------------------ *)
(** ** The checkers over a store of list objects *)

(** The address of a list object. *)
Definition loc : Type := nat.

(** The store gives the items each list object holds at present. *)
Definition store : Type := loc -> list value.

(** A computation that may read and write the store.  From a store it
    returns or raises and leaves a store behind; [None] means that the
    fuel given to a loop ran out before the loop ended. *)
Definition M (A : Type) : Type := store -> option (result A * store).

Definition ret {A : Type} (a : A) : M A := fun st => Some (Ok a, st).

Definition lift {A : Type} (c : result A) : M A := fun st => Some (c, st).

Definition bindM {A B : Type} (c : M A) (k : A -> M B) : M B :=
  fun st =>
    match c st with
    | None => None
    | Some (Raise e, st') => Some (Raise e, st')
    | Some (Ok a, st') => k a st'
    end.

(** [lst.append(v)], the kind of write a key function with side effects
    could perform. *)
Definition list_append (lst : loc) (v : value) : M unit :=
  fun st =>
    Some (Ok tt, fun l => if Nat.eqb l lst then st lst ++ [v] else st l).

(** A list iterator: the list it walks and the index of the next item.
    It reads the list as it is when [next] is called. *)
Record list_iterator : Type := {
  it_seq : loc;
  it_index : nat
}.

(** [iter(lst)]. *)
Definition iter (lst : loc) : list_iterator :=
  {| it_seq := lst; it_index := 0 |}.

(** [next(it)]: the next item and the advanced iterator, or no item when
    the list is exhausted. *)
Definition next (it : list_iterator) : M (option value * list_iterator) :=
  fun st =>
    match nth_error (st (it_seq it)) (it_index it) with
    | Some v =>
        Some (Ok (Some v, {| it_seq := it_seq it;
                             it_index := S (it_index it) |}), st)
    | None => Some (Ok (None, it), st)
    end.

(** [next(it, default)]. *)
Definition next_or (it : list_iterator) (default : value)
  : M (value * list_iterator) :=
  bindM (next it) (fun '(ob, it') =>
    ret (match ob with Some v => v | None => default end, it')).

(** A key function as a callable that may touch the store. *)
Definition key_st : Type := value -> M value.

(** The key function [k] is pure and computes [f]: it returns what [f]
    does and leaves the store as it found it. *)
Definition pure_key (k : key_st) (f : key_fn) : Prop :=
  forall x st, k x st = Some (f x, st).

(** The optional key argument is absent, or a pure callable. *)
Definition pure_key_arg (key : option key_st) (f : option key_fn) : Prop :=
  match key, f with
  | None, None => True
  | Some k, Some g => pure_key k g
  | _, _ => False
  end.

(** [all(compare(key(x), key(y)) for x, y in ...)] once the first item
    [a] of a pair is known: each round draws the next item [b] from the
    iterator, computes the two keys and compares them. *)
Fixpoint scan_from (fuel : nat) (compare : value -> value -> result bool)
    (key : key_st) (a : value) (it : list_iterator) : M bool :=
  match fuel with
  | O => fun _ => None
  | S fuel' =>
      bindM (next it) (fun '(ob, it') =>
        match ob with
        | None => ret true
        | Some b =>
            bindM (key a) (fun ka =>
            bindM (key b) (fun kb =>
            bindM (lift (compare ka kb)) (fun c =>
            if c then scan_from fuel' compare key b it' else ret false)))
        end)
  end.

(** The scan over [pairwise(lst)].  [itertools.pairwise] ends at once
    on an exhausted iterator; the backport draws the first item with
    [next(it, None)] and ends when that is [None]. *)
Definition scan_in_store (imp : import_outcome) (fuel : nat)
    (compare : value -> value -> result bool) (key : key_st) (lst : loc)
  : M bool :=
  let it := iter lst in
  match imp with
  | Imported =>
      bindM (next it) (fun '(first, it) =>
        match first with
        | None => ret true
        | Some a => scan_from fuel compare key a it
        end)
  | ImportError =>
      bindM (next_or it VNone) (fun '(a, it) =>
        if is_None a then ret true else scan_from fuel compare key a it)
  end.

Definition key_st_or_identity (key : option key_st) : key_st :=
  match key with
  | None => fun x => ret x
  | Some k => k
  end.

Definition is_sorted_ascending_in_store (imp : import_outcome) (fuel : nat)
    (lst : loc) (strict : bool) (key : option key_st) : M bool :=
  scan_in_store imp fuel (compare_ascending strict)
    (key_st_or_identity key) lst.

Definition is_sorted_descending_in_store (imp : import_outcome) (fuel : nat)
    (lst : loc) (strict : bool) (key : option key_st) : M bool :=
  scan_in_store imp fuel (compare_descending strict)
    (key_st_or_identity key) lst.

(** A key function that records the items it is called on, as
    [def key(x): log.append(x); return f(x)] would, [log] being a list
    object of its own. *)
Definition logging_key (log : loc) (f : key_fn) : key_st :=
  fun x => bindM (list_append log x) (fun _ => lift (f x)).

(* ------------------------------------------------------------------ *)
(** ** Vocabulary of the properties *)

(** [x] and [y] are the items at positions [i] and [i + 1]. *)
Definition adjacent (lst : list value) (i : nat) (x y : value) : Prop :=
  nth_error lst i = Some x /\ nth_error lst (S i) = Some y.

(** The backport is in use and the sequence starts with [None] followed
    by at least one more item: the one case where [_pairwise] and
    [itertools.pairwise] differ. *)
Definition sentinel_clash (imp : import_outcome) (lst : list value) : bool :=
  match imp, lst with
  | ImportError, VNone :: _ :: _ => true
  | _, _ => false
  end.

(** The relation, applied to the keys of [x] and [y], answers [b]. *)
Definition relation_gives (key : key_fn)
    (rel : value -> value -> result bool) (x y : value) (b : bool) : Prop :=
  exists kx ky, key x = Ok kx /\ key y = Ok ky /\ rel kx ky = Ok b.

(** Applying the relation to the keys of [x] and [y] raises [e]: one of
    the keys cannot be computed, or the two keys cannot be ordered. *)
Definition relation_raises (key : key_fn)
    (rel : value -> value -> result bool) (x y : value) (e : exn) : Prop :=
  key x = Raise e \/
  (exists kx, key x = Ok kx /\ key y = Raise e) \/
  (exists kx ky, key x = Ok kx /\ key y = Ok ky /\ rel kx ky = Raise e).

(** The keys of [x] and [y] are both computed and cannot be ordered by
    the relation: comparing them raises [TypeError]. *)
Definition keys_incomparable (key : key_fn)
    (rel : value -> value -> result bool) (x y : value) : Prop :=
  exists kx ky, key x = Ok kx /\ key y = Ok ky /\ rel kx ky = Raise TypeError.

(** Every pair before position [i] satisfies the relation. *)
Definition holds_before (key : key_fn)
    (rel : value -> value -> result bool) (lst : list value) (i : nat)
  : Prop :=
  forall j x y, (j < i)%nat -> adjacent lst j x y ->
    relation_gives key rel x y true.

(** The scan as [itertools.pairwise] would drive it: [all] over the
    relation applied to the keys of each adjacent pair, left to right. *)
Definition scan (rel : value -> value -> result bool) (key : key_fn)
    (lst : list value) : result bool :=
  py_all (map (keyed_compare rel key) (itertools_pairwise lst)).

(** The items of [lst] that a choice keeps, the choice being one boolean
    per position; positions past the end of the choice are dropped. *)
Fixpoint select (keep : list bool) (lst : list value) : list value :=
  match keep, lst with
  | true :: keep', x :: lst' => x :: select keep' lst'
  | false :: keep', _ :: lst' => select keep' lst'
  | _, _ => []
  end.

(** A pair read from the other end. *)
Definition swap_pair (p : value * value) : value * value := (snd p, fst p).

(** The answer of an item of a generator, an exception counting as
    false. *)
Definition truth (c : result bool) : bool :=
  match c with
  | Ok b => b
  | Raise _ => false
  end.

(** The strict operators. *)
Definition is_strict_op (op : cmp_op) : bool :=
  match op with
  | OpLt | OpGt => true
  | _ => false
  end.

(** The non-strict operator that goes with a strict one. *)
Definition weaken_op (op : cmp_op) : cmp_op :=
  match op with
  | OpLt => OpLe
  | OpGt => OpGe
  | o => o
  end.

(** [list(map(key, seq))]: the keys of all the items, computed up
    front. *)
Fixpoint py_map (key : key_fn) (seq : list value) : result (list value) :=
  match seq with
  | [] => Ok []
  | x :: seq' => kx <- key x ;; ks <- py_map key seq' ;; Ok (kx :: ks)
  end.

(** The dict [{"age": n}]. *)
Definition record_with_age (n : Z) : value := VDict [("age"%string, VInt n)].

(* ------------------------------------------------------------------ *)
(** ** Three-way comparison *)

Section ThreeWay.
Variable cmp3 : value -> value -> option comparison.

(** Lists and tuples, three-way: the first pair of items that are not
    equal decides; without one, the sizes do. *)
Fixpoint seq_cmp3 (xs ys : list value) : option comparison :=
  match xs, ys with
  | a :: xs', b :: ys' => if py_eq a b then seq_cmp3 xs' ys' else cmp3 a b
  | _, _ => Some (Nat.compare (List.length xs) (List.length ys))
  end.
End ThreeWay.

(** How [x] stands to [y] in the order that the four operators read:
    below, level or above, or [None] when the two cannot be ordered. *)
Fixpoint py_cmp3 (x y : value) {struct x} : option comparison :=
  match x, y with
  | VBool a, VBool b => Some (Z.compare (Z.b2z a) (Z.b2z b))
  | VBool a, VInt n => Some (Z.compare (Z.b2z a) n)
  | VInt m, VBool b => Some (Z.compare m (Z.b2z b))
  | VInt m, VInt n => Some (Z.compare m n)
  | VStr s, VStr t => Some (String.compare s t)
  | VList xs, VList ys => seq_cmp3 py_cmp3 xs ys
  | VTuple xs, VTuple ys => seq_cmp3 py_cmp3 xs ys
  | _, _ => None
  end.

(** How [x] stands to [z] when it stands [c1] to [y] and [y] stands
    [c2] to [z], neither being above. *)
Definition lex_comparison (c1 c2 : comparison) : comparison :=
  match c1 with
  | Eq => c2
  | _ => c1
  end.

(* ------------------------------------------------------------------ *)
(** ** Laws of comparison on built-in values *)

Lemma test_op_swap (op : cmp_op) (c : comparison) :
  test_op (swap_op op) (CompOpp c) = test_op op c.
Proof. destruct op, c; reflexivity. Qed.

Lemma test_op_weaken (op : cmp_op) (c : comparison) :
  test_op op c = true -> test_op (weaken_op op) c = true.
Proof. destruct op, c; simpl; congruence. Qed.

Lemma test_op_strict_Eq (op : cmp_op) :
  is_strict_op op = true -> test_op op Eq = false.
Proof. destruct op; simpl; congruence. Qed.

Lemma string_compare_refl (s : string) : String.compare s s = Eq.
Proof.
  pose proof (String.compare_antisym s s) as H.
  destruct (String.compare s s); simpl in H; congruence.
Qed.

Section ExistsForall.
Variable A : Type.

Lemma existsb_ext_in (f g : A -> bool) (l : list A) :
  (forall a, In a l -> f a = g a) -> existsb f l = existsb g l.
Proof.
  induction l as [|a l IH]; simpl; intros H; [reflexivity|].
  rewrite (H a) by auto. rewrite IH by auto. reflexivity.
Qed.

Lemma forallb_ext_in (f g : A -> bool) (l : list A) :
  (forall a, In a l -> f a = g a) -> forallb f l = forallb g l.
Proof.
  induction l as [|a l IH]; simpl; intros H; [reflexivity|].
  rewrite (H a) by auto. rewrite IH by auto. reflexivity.
Qed.
End ExistsForall.

Lemma seq_eq_sym (xs : list value) :
  Forall (fun a => forall b, py_eq a b = py_eq b a) xs ->
  forall ys, seq_eq py_eq xs ys = seq_eq py_eq ys xs.
Proof.
  induction 1 as [|a xs Ha _ IH]; intros [|b ys]; simpl; try reflexivity.
  rewrite Ha, IH. reflexivity.
Qed.

Lemma dict_eq_sym (d : list (string * value)) :
  Forall (fun kv => forall b, py_eq (snd kv) b = py_eq b (snd kv)) d ->
  forall e, dict_eq py_eq d e = dict_eq py_eq e d.
Proof.
  intros Hd e. unfold dict_eq. rewrite Forall_forall in Hd.
  rewrite andb_comm. f_equal.
  - apply forallb_ext_in. intros kv' _.
    apply existsb_ext_in. intros kv Hkv.
    rewrite String.eqb_sym, (Hd kv Hkv). reflexivity.
  - apply forallb_ext_in. intros kv Hkv.
    apply existsb_ext_in. intros kv' _.
    rewrite String.eqb_sym, (Hd kv Hkv). reflexivity.
Qed.

(** [==] is symmetric. *)
Lemma py_eq_sym (x y : value) : py_eq x y = py_eq y x.
Proof.
  revert y. induction x using value_ind; intros [] ; simpl;
    try reflexivity; try apply Z.eqb_sym; try apply String.eqb_sym.
  - apply seq_eq_sym; assumption.
  - apply seq_eq_sym; assumption.
  - apply dict_eq_sym; assumption.
Qed.

Lemma seq_compare_swap (xs : list value) :
  Forall (fun a => forall op b,
            py_compare op a b = py_compare (swap_op op) b a) xs ->
  forall op ys,
    seq_compare py_eq (py_compare op) op xs ys
    = seq_compare py_eq (py_compare (swap_op op)) (swap_op op) ys xs.
Proof.
  induction 1 as [|a xs Ha _ IH]; intros op [|b ys]; simpl;
    try (destruct op; reflexivity).
  - rewrite (py_eq_sym b a). destruct (py_eq a b); [apply IH | apply Ha].
Qed.

(** An ordering operator can be read from either side: [x < y] and
    [y > x] return or raise alike, and so do [x <= y] and [y >= x]. *)
Lemma py_compare_swap (op : cmp_op) (x y : value) :
  py_compare op x y = py_compare (swap_op op) y x.
Proof.
  revert op y. induction x using value_ind; intros op [] ; simpl;
    try reflexivity;
    try (rewrite <- test_op_swap, <- Z.compare_antisym; reflexivity).
  - rewrite <- test_op_swap, <- String.compare_antisym. reflexivity.
  - apply seq_compare_swap; assumption.
  - apply seq_compare_swap; assumption.
Qed.

Lemma seq_compare_weaken (op : cmp_op) (xs : list value) :
  Forall (fun a => forall b,
            py_compare op a b = Ok true ->
            py_compare (weaken_op op) a b = Ok true) xs ->
  forall ys,
    seq_compare py_eq (py_compare op) op xs ys = Ok true ->
    seq_compare py_eq (py_compare (weaken_op op)) (weaken_op op) xs ys
    = Ok true.
Proof.
  induction 1 as [|a xs Ha _ IH]; intros [|b ys]; simpl; intros E;
    try (injection E as E; f_equal; apply test_op_weaken; exact E).
  destruct (py_eq a b); [apply IH | apply Ha]; exact E.
Qed.

(** Where the strict operator answers true, so does the non-strict
    one. *)
Lemma py_compare_weaken (op : cmp_op) (x y : value) :
  py_compare op x y = Ok true -> py_compare (weaken_op op) x y = Ok true.
Proof.
  revert y. induction x using value_ind; intros [] ; simpl; intros E;
    try discriminate;
    try (injection E as E; f_equal; apply test_op_weaken; exact E).
  - apply seq_compare_weaken; assumption.
  - apply seq_compare_weaken; assumption.
Qed.

Lemma seq_compare_of_eq (op : cmp_op) (cmp : value -> value -> result bool)
    (xs ys : list value) :
  seq_eq py_eq xs ys = true ->
  seq_compare py_eq cmp op xs ys = Ok (test_op op Eq).
Proof.
  revert ys. induction xs as [|a xs IH]; intros [|b ys]; simpl;
    try discriminate; try reflexivity.
  intros E. apply andb_true_iff in E as [Eab E]. rewrite Eab. apply IH, E.
Qed.

(** Two equal values, when they can be ordered at all, are in no strict
    order. *)
Lemma py_compare_of_eq (op : cmp_op) (x y : value) (b : bool) :
  py_eq x y = true -> py_compare op x y = Ok b -> b = test_op op Eq.
Proof.
  destruct x, y; simpl; try discriminate; intros E C;
    try (apply Z.eqb_eq in E; rewrite E, Z.compare_refl in C; congruence).
  - apply String.eqb_eq in E. subst. rewrite string_compare_refl in C.
    congruence.
  - rewrite (seq_compare_of_eq _ _ _ _ E) in C. congruence.
  - rewrite (seq_compare_of_eq _ _ _ _ E) in C. congruence.
Qed.

(** [None] cannot be ordered with anything, itself included. *)
Lemma py_compare_None_l (op : cmp_op) (y : value) :
  py_compare op VNone y = Raise TypeError.
Proof. destruct y; reflexivity. Qed.

Lemma py_compare_None_r (op : cmp_op) (x : value) :
  py_compare op x VNone = Raise TypeError.
Proof. destruct x; reflexivity. Qed.

(* ------------------------------------------------------------------ *)
(** ** Adjacent pairs *)

Lemma itertools_pairwise_cons2 (a b : value) (l : list value) :
  itertools_pairwise (a :: b :: l) = (a, b) :: itertools_pairwise (b :: l).
Proof. reflexivity. Qed.

Lemma _pairwise_loop_itertools (a : value) (it : list value) :
  _pairwise_loop a it = itertools_pairwise (a :: it).
Proof.
  revert a. induction it as [|b it IH]; intros a; [reflexivity|].
  rewrite itertools_pairwise_cons2. simpl. f_equal. apply IH.
Qed.

Lemma pairwise_no_clash (imp : import_outcome) (lst : list value) :
  sentinel_clash imp lst = false -> pairwise imp lst = itertools_pairwise lst.
Proof.
  destruct imp; [reflexivity|].
  destruct lst as [|a it]; [reflexivity|].
  unfold pairwise, _pairwise, next_default.
  destruct a; simpl; intros H; try apply _pairwise_loop_itertools.
  destruct it; [reflexivity | discriminate].
Qed.

Lemma itertools_pairwise_nth (l : list value) (i : nat) (x y : value) :
  nth_error (itertools_pairwise l) i = Some (x, y) <-> adjacent l i x y.
Proof.
  unfold adjacent. revert i.
  induction l as [|a l IH]; intros i.
  - destruct i; simpl; split; intros H; try discriminate;
      destruct H; discriminate.
  - destruct l as [|b l].
    + destruct i as [|[|i]]; simpl; split; intros H; try discriminate;
        destruct H; discriminate.
    + rewrite itertools_pairwise_cons2. destruct i as [|i].
      * simpl. split.
        -- intros [= -> ->]. auto.
        -- intros [[= ->] [= ->]]. reflexivity.
      * change (nth_error ((a, b) :: itertools_pairwise (b :: l)) (S i))
          with (nth_error (itertools_pairwise (b :: l)) i).
        rewrite IH. reflexivity.
Qed.

Lemma itertools_pairwise_zip (l : list value) :
  itertools_pairwise l = zip l (slice_from_1 l).
Proof.
  unfold zip, slice_from_1.
  induction l as [|a [|b l] IH]; try reflexivity.
  rewrite itertools_pairwise_cons2, IH. reflexivity.
Qed.

Lemma itertools_pairwise_snoc (l : list value) (y z : value) :
  itertools_pairwise (l ++ [y; z]) = itertools_pairwise (l ++ [y]) ++ [(y, z)].
Proof.
  induction l as [|a [|b l] IH]; try reflexivity.
  change ((a :: b :: l) ++ [y; z]) with (a :: b :: (l ++ [y; z])).
  change ((a :: b :: l) ++ [y]) with (a :: b :: (l ++ [y])).
  rewrite !itertools_pairwise_cons2.
  change (b :: l ++ [y; z]) with ((b :: l) ++ [y; z]).
  rewrite IH. reflexivity.
Qed.

Lemma itertools_pairwise_rev (l : list value) :
  itertools_pairwise (rev l) = rev (map swap_pair (itertools_pairwise l)).
Proof.
  induction l as [|a [|b l] IH]; try reflexivity.
  rewrite itertools_pairwise_cons2.
  change (rev (a :: b :: l)) with ((rev l ++ [b]) ++ [a]).
  rewrite <- app_assoc. simpl app at 2.
  rewrite itertools_pairwise_snoc.
  change (rev l ++ [b]) with (rev (b :: l)). rewrite IH. reflexivity.
Qed.

(* ------------------------------------------------------------------ *)
(** ** [all] over a generator *)

Lemma py_all_true (g : list (result bool)) :
  py_all g = Ok true <-> Forall (fun c => c = Ok true) g.
Proof.
  induction g as [|c g IH]; simpl.
  - split; auto.
  - destruct c as [[|]|e]; simpl.
    + rewrite IH. split; [auto | intros H; inversion H; assumption].
    + split; [discriminate | intros H; inversion H; discriminate].
    + split; [discriminate | intros H; inversion H; discriminate].
Qed.

Lemma py_all_stops (g : list (result bool)) (r : result bool) :
  r <> Ok true ->
  (py_all g = r <->
   exists i, nth_error g i = Some r /\
     forall j c, (j < i)%nat -> nth_error g j = Some c -> c = Ok true).
Proof.
  intros Hr. induction g as [|c g IH]; simpl.
  - split; [congruence|]. intros [[|i] [H _]]; discriminate.
  - assert (Hhead : c <> Ok true ->
             (c = r <-> exists i, nth_error (c :: g) i = Some r /\
               forall j c', (j < i)%nat ->
                 nth_error (c :: g) j = Some c' -> c' = Ok true)).
    { intros Hc. split.
      - intros ->. exists 0%nat. split; [reflexivity | intros; lia].
      - intros [[|i] [H Hbefore]]; [simpl in H; congruence|].
        exfalso. apply Hc. apply (Hbefore 0%nat); [lia | reflexivity]. }
    destruct c as [[|]|e]; simpl.
    + rewrite IH. split.
      * intros [i [H Hbefore]]. exists (S i). split; [exact H|].
        intros [|j] c' Hj Hc'; [simpl in Hc'; congruence|].
        apply (Hbefore j); [lia | exact Hc'].
      * intros [[|i] [H Hbefore]]; [simpl in H; congruence|].
        exists i. split; [exact H|].
        intros j c' Hj Hc'. apply (Hbefore (S j)); [lia | exact Hc'].
    + apply Hhead. discriminate.
    + apply Hhead. discriminate.
Qed.

Lemma py_all_total (g : list (result bool)) :
  Forall (fun c => exists b, c = Ok b) g ->
  py_all g = Ok (forallb truth g).
Proof.
  induction 1 as [|c g [b ->] _ IH]; [reflexivity|].
  simpl. destruct b; [exact IH | reflexivity].
Qed.

Lemma forallb_rev (A : Type) (f : A -> bool) (l : list A) :
  forallb f (rev l) = forallb f l.
Proof.
  induction l as [|a l IH]; [reflexivity|].
  simpl. rewrite forallb_app, IH. simpl. rewrite andb_true_r.
  apply andb_comm.
Qed.

Lemma py_all_rev (g : list (result bool)) :
  Forall (fun c => exists b, c = Ok b) g -> py_all (rev g) = py_all g.
Proof.
  intros H. rewrite (py_all_total _ H).
  rewrite py_all_total by (apply Forall_rev; exact H).
  rewrite forallb_rev. reflexivity.
Qed.

(* ------------------------------------------------------------------ *)
(** ** The scan over adjacent pairs *)

Lemma keyed_compare_gives (rel : value -> value -> result bool)
    (key : key_fn) (x y : value) (b : bool) :
  keyed_compare rel key (x, y) = Ok b <-> relation_gives key rel x y b.
Proof.
  unfold keyed_compare, relation_gives, bind. split.
  - destruct (key x) as [kx|]; [|discriminate].
    destruct (key y) as [ky|]; [|discriminate].
    intros H. exists kx, ky. auto.
  - intros [kx [ky [-> [-> H]]]]. exact H.
Qed.

Lemma keyed_compare_raises (rel : value -> value -> result bool)
    (key : key_fn) (x y : value) (e : exn) :
  keyed_compare rel key (x, y) = Raise e <-> relation_raises key rel x y e.
Proof.
  unfold keyed_compare, relation_raises, bind. split.
  - destruct (key x) as [kx|ex]; [|intros [= ->]; auto].
    destruct (key y) as [ky|ey]; [|intros [= ->]; right; left; eauto].
    intros H. right. right. exists kx, ky. auto.
  - intros [H | [[kx [Hx Hy]] | [kx [ky [Hx [Hy H]]]]]].
    + rewrite H. reflexivity.
    + rewrite Hx, Hy. reflexivity.
    + rewrite Hx, Hy. exact H.
Qed.

Section Scan.
Variable rel : value -> value -> result bool.
Variable key : key_fn.
Variable lst : list value.

Lemma scan_item (i : nat) (c : result bool) :
  nth_error (map (keyed_compare rel key) (itertools_pairwise lst)) i
  = Some c <->
  exists x y, adjacent lst i x y /\ keyed_compare rel key (x, y) = c.
Proof.
  rewrite nth_error_map. split.
  - destruct (nth_error (itertools_pairwise lst) i) as [[x y]|] eqn:E;
      [|discriminate].
    intros [= <-]. exists x, y. split; [|reflexivity].
    apply itertools_pairwise_nth. exact E.
  - intros [x [y [Hadj <-]]].
    apply itertools_pairwise_nth in Hadj. rewrite Hadj. reflexivity.
Qed.

Lemma scan_before (i : nat) :
  (forall j c, (j < i)%nat ->
     nth_error (map (keyed_compare rel key) (itertools_pairwise lst)) j
     = Some c -> c = Ok true) <->
  holds_before key rel lst i.
Proof.
  unfold holds_before. split.
  - intros H j x y Hj Hadj. apply keyed_compare_gives.
    apply (H j); [exact Hj|]. apply scan_item. eauto.
  - intros H j c Hj Hc. apply scan_item in Hc as [x [y [Hadj <-]]].
    apply keyed_compare_gives. apply (H j); assumption.
Qed.

Lemma scan_true :
  scan rel key lst = Ok true <->
  forall i x y, adjacent lst i x y -> relation_gives key rel x y true.
Proof.
  unfold scan. rewrite py_all_true, Forall_forall. split.
  - intros H i x y Hadj. apply keyed_compare_gives. apply H.
    apply (nth_error_In _ i). apply scan_item. eauto.
  - intros H c Hc. apply In_nth_error in Hc as [i Hi].
    apply scan_item in Hi as [x [y [Hadj <-]]].
    apply keyed_compare_gives. apply (H i); assumption.
Qed.

Lemma scan_false :
  scan rel key lst = Ok false <->
  exists i x y, adjacent lst i x y /\ relation_gives key rel x y false /\
                holds_before key rel lst i.
Proof.
  unfold scan. rewrite py_all_stops by discriminate. split.
  - intros [i [Hi Hb]]. apply scan_item in Hi as [x [y [Hadj Hc]]].
    exists i, x, y. split; [exact Hadj|]. split.
    + apply keyed_compare_gives. exact Hc.
    + apply scan_before. exact Hb.
  - intros [i [x [y [Hadj [Hc Hb]]]]]. exists i. split.
    + apply scan_item. exists x, y. split; [exact Hadj|].
      apply keyed_compare_gives. exact Hc.
    + apply scan_before. exact Hb.
Qed.

Lemma scan_raise (e : exn) :
  scan rel key lst = Raise e <->
  exists i x y, adjacent lst i x y /\ relation_raises key rel x y e /\
                holds_before key rel lst i.
Proof.
  unfold scan. rewrite py_all_stops by discriminate. split.
  - intros [i [Hi Hb]]. apply scan_item in Hi as [x [y [Hadj Hc]]].
    exists i, x, y. split; [exact Hadj|]. split.
    + apply keyed_compare_raises. exact Hc.
    + apply scan_before. exact Hb.
  - intros [i [x [y [Hadj [Hc Hb]]]]]. exists i. split.
    + apply scan_item. exists x, y. split; [exact Hadj|].
      apply keyed_compare_raises. exact Hc.
    + apply scan_before. exact Hb.
Qed.

Lemma scan_items_total :
  (forall i x y, adjacent lst i x y ->
     exists b, relation_gives key rel x y b) ->
  Forall (fun c => exists b, c = Ok b)
         (map (keyed_compare rel key) (itertools_pairwise lst)).
Proof.
  intros H. apply Forall_forall. intros c Hc.
  apply In_nth_error in Hc as [i Hi].
  apply scan_item in Hi as [x [y [Hadj <-]]].
  destruct (H i x y Hadj) as [b Hb]. exists b.
  apply keyed_compare_gives. exact Hb.
Qed.

Lemma scan_total :
  (forall i x y, adjacent lst i x y ->
     exists b, relation_gives key rel x y b) ->
  exists b, scan rel key lst = Ok b.
Proof.
  intros H. unfold scan. rewrite (py_all_total _ (scan_items_total H)).
  eauto.
Qed.
End Scan.

Lemma is_sorted_ascending_scan (imp : import_outcome) (lst : list value)
    (strict : bool) (key : option key_fn) :
  sentinel_clash imp lst = false ->
  is_sorted_ascending imp lst strict key
  = scan (compare_ascending strict) (key_or_identity key) lst.
Proof.
  intros H. unfold is_sorted_ascending, scan.
  rewrite (pairwise_no_clash _ _ H). reflexivity.
Qed.

Lemma is_sorted_descending_scan (imp : import_outcome) (lst : list value)
    (strict : bool) (key : option key_fn) :
  sentinel_clash imp lst = false ->
  is_sorted_descending imp lst strict key
  = scan (compare_descending strict) (key_or_identity key) lst.
Proof.
  intros H. unfold is_sorted_descending, scan.
  rewrite (pairwise_no_clash _ _ H). reflexivity.
Qed.

(* ------------------------------------------------------------------ *)
(** ** The alternative implementations *)

Lemma getitem_nth (lst : list value) (i : nat) (x : value) :
  nth_error lst i = Some x -> getitem lst (Z.of_nat i) = Ok x.
Proof.
  intros H. unfold getitem.
  assert (E : (Z.of_nat i <? 0)%Z = false) by (apply Z.ltb_ge; lia).
  rewrite E. cbv zeta. rewrite E, Nat2Z.id, H. reflexivity.
Qed.

Lemma index_items (compare : value -> value -> result bool)
    (l pre : list value) :
  map (fun i =>
         a <- getitem (pre ++ l) i ;;
         b <- getitem (pre ++ l) (i + 1)%Z ;;
         compare a b)
      (map Z.of_nat (seq (List.length pre) (List.length l - 1)))
  = map (fun '(x, y) => compare x y) (itertools_pairwise l).
Proof.
  revert pre. induction l as [|a [|b l] IH]; intros pre; try reflexivity.
  rewrite itertools_pairwise_cons2.
  replace (List.length (a :: b :: l) - 1)%nat with (S (List.length (b :: l) - 1))
    by (simpl; lia).
  cbn [seq map]. f_equal.
  - rewrite (getitem_nth (pre ++ a :: b :: l) (List.length pre) a)
      by (rewrite nth_error_app2, Nat.sub_diag by lia; reflexivity).
    replace (Z.of_nat (List.length pre) + 1)%Z
      with (Z.of_nat (S (List.length pre))) by lia.
    rewrite (getitem_nth (pre ++ a :: b :: l) (S (List.length pre)) b).
    + reflexivity.
    + rewrite nth_error_app2 by lia.
      replace (S (List.length pre) - List.length pre)%nat with 1%nat by lia.
      reflexivity.
  - specialize (IH (pre ++ [a])).
    rewrite <- app_assoc in IH. simpl app in IH.
    rewrite length_app in IH. simpl List.length in IH.
    replace (List.length pre + 1)%nat with (S (List.length pre)) in IH by lia.
    exact IH.
Qed.

Lemma range_len_pred (lst : list value) :
  range (len lst - 1) = map Z.of_nat (seq 0 (List.length lst - 1)).
Proof.
  unfold range, len. f_equal. f_equal. lia.
Qed.

Lemma keyed_compare_identity (compare : value -> value -> result bool)
    (ps : list (value * value)) :
  map (keyed_compare compare (key_or_identity None)) ps
  = map (fun '(x, y) => compare x y) ps.
Proof. apply map_ext. intros [x y]. reflexivity. Qed.

Lemma for_each_index_all (compare : value -> value -> result bool)
    (lst : list value) (indices : list Z) :
  for_each_index compare lst indices
  = py_all (map (fun i =>
                   a <- getitem lst i ;;
                   b <- getitem lst (i + 1)%Z ;;
                   compare a b) indices).
Proof.
  induction indices as [|i indices IH]; [reflexivity|].
  simpl. destruct (getitem lst i) as [a|]; [|reflexivity]. simpl.
  destruct (getitem lst (i + 1)) as [b|]; [|reflexivity]. simpl.
  destruct (compare a b) as [[|]|]; simpl; auto.
Qed.

Lemma is_sorted_ascending_zip_scan (lst : list value) (strict : bool) :
  is_sorted_ascending_zip lst strict
  = scan (compare_ascending strict) (key_or_identity None) lst.
Proof.
  unfold is_sorted_ascending_zip, scan.
  rewrite keyed_compare_identity, <- itertools_pairwise_zip. reflexivity.
Qed.

Lemma is_sorted_ascending_range_scan (lst : list value) (strict : bool) :
  is_sorted_ascending_range lst strict
  = scan (compare_ascending strict) (key_or_identity None) lst.
Proof.
  unfold is_sorted_ascending_range, scan.
  rewrite keyed_compare_identity, range_len_pred.
  rewrite <- (index_items (compare_ascending strict) lst []). reflexivity.
Qed.

Lemma is_sorted_ascending_loop_scan (lst : list value) (strict : bool) :
  is_sorted_ascending_loop lst strict
  = scan (compare_ascending strict) (key_or_identity None) lst.
Proof.
  rewrite <- is_sorted_ascending_range_scan.
  unfold is_sorted_ascending_loop. apply for_each_index_all.
Qed.

(** With [itertools.pairwise], or when the sequence does not start with
    [None] followed by more items, the three alternatives and the
    primary checker called without a key give the same outcome, be it a
    boolean or an exception. *)
Lemma alternatives_agree (imp : import_outcome) (lst : list value)
    (strict : bool) :
  sentinel_clash imp lst = false ->
  is_sorted_ascending_zip lst strict = is_sorted_ascending imp lst strict None
  /\ is_sorted_ascending_loop lst strict
     = is_sorted_ascending imp lst strict None
  /\ is_sorted_ascending_range lst strict
     = is_sorted_ascending imp lst strict None.
Proof.
  intros H. rewrite (is_sorted_ascending_scan _ _ strict None H).
  rewrite is_sorted_ascending_zip_scan, is_sorted_ascending_loop_scan,
    is_sorted_ascending_range_scan. auto.
Qed.

(* ------------------------------------------------------------------ *)
(** ** Properties of the checkers *)

(** On a literal sequence of at most four items, a relation that answers
    on every adjacent pair is checked position by position. *)
Ltac answer_at_each_position :=
  intros [|[|[|[|?]]]] ? ? [Hx Hy]; simpl in Hx, Hy;
  try discriminate; injection Hx as <-; injection Hy as <-;
  eexists; reflexivity.

(** C1, as stated, fails: in [["a", 1, 0]] the adjacent pair [(1, 0)]
    violates [<=], yet [is_sorted_ascending] does not return false; the
    pair [("a", 1)] is reached first and raises. *)
Lemma adjacent_violation_not_false :
  let lst := [VStr "a"; VInt 1; VInt 0] in
  (exists i x y, adjacent lst i x y /\
     relation_gives (key_or_identity None)
       (fun a b => if false then py_lt a b else py_le a b) x y false)
  /\ is_sorted_ascending Imported lst false None = Raise TypeError.
Proof.
  split; [|reflexivity].
  exists 1%nat, (VInt 1), (VInt 0). split; [split; reflexivity|].
  exists (VInt 1), (VInt 0). repeat split; reflexivity.
Qed.

(** C1 (amended).  With [itertools.pairwise], or on a sequence that does
    not start with [None] followed by more items: [is_sorted_ascending]
    returns true if and only if every adjacent pair of keys
    [key(e[i]), key(e[i+1])] satisfies [<=] ([<] when strict), and it
    returns false if and only if some adjacent pair answers false to the
    relation while every pair before it satisfies it;
    [is_sorted_descending] does the same with [>=] ([>] when strict).
    The key is the identity when absent. *)
Theorem is_sorted_checks_adjacent_pairs (imp : import_outcome)
    (lst : list value) (strict : bool) (key : option key_fn) :
  sentinel_clash imp lst = false ->
  let k := key_or_identity key in
  let asc := fun a b => if strict then py_lt a b else py_le a b in
  let desc := fun a b => if strict then py_gt a b else py_ge a b in
  (is_sorted_ascending imp lst strict key = Ok true <->
     forall i x y, adjacent lst i x y -> relation_gives k asc x y true)
  /\ (is_sorted_ascending imp lst strict key = Ok false <->
     exists i x y, adjacent lst i x y /\ relation_gives k asc x y false /\
                   holds_before k asc lst i)
  /\ (is_sorted_descending imp lst strict key = Ok true <->
     forall i x y, adjacent lst i x y -> relation_gives k desc x y true)
  /\ (is_sorted_descending imp lst strict key = Ok false <->
     exists i x y, adjacent lst i x y /\ relation_gives k desc x y false /\
                   holds_before k desc lst i).
Proof.
  intros H k asc desc.
  rewrite (is_sorted_ascending_scan _ _ strict key H).
  rewrite (is_sorted_descending_scan _ _ strict key H).
  repeat split.
  - apply (scan_true (compare_ascending strict) k lst).
  - apply (scan_true (compare_ascending strict) k lst).
  - apply (scan_false (compare_ascending strict) k lst).
  - apply (scan_false (compare_ascending strict) k lst).
  - apply (scan_true (compare_descending strict) k lst).
  - apply (scan_true (compare_descending strict) k lst).
  - apply (scan_false (compare_descending strict) k lst).
  - apply (scan_false (compare_descending strict) k lst).
Qed.

Lemma is_sorted_checks_adjacent_pairs_witness :
  sentinel_clash ImportError [VInt 1; VInt 3; VInt 2; VInt 4] = false /\
  (is_sorted_ascending ImportError [VInt 1; VInt 3; VInt 2; VInt 4] false None
   = Ok false <->
   exists i x y,
     adjacent [VInt 1; VInt 3; VInt 2; VInt 4] i x y /\
     relation_gives (key_or_identity None)
       (fun a b => if false then py_lt a b else py_le a b) x y false /\
     holds_before (key_or_identity None)
       (fun a b => if false then py_lt a b else py_le a b)
       [VInt 1; VInt 3; VInt 2; VInt 4] i).
Proof.
  split; [reflexivity|].
  exact (proj1 (proj2 (is_sorted_checks_adjacent_pairs ImportError
           [VInt 1; VInt 3; VInt 2; VInt 4] false None eq_refl))).
Defined.

(** The discrepancy behind C2: on Python before 3.10, where the backport
    is in use, [[None, 1]] makes the primary checker return true while
    the zip, loop and range versions raise [TypeError]. *)
Theorem alternatives_differ_under_backport :
  is_sorted_ascending ImportError [VNone; VInt 1] false None = Ok true
  /\ is_sorted_ascending_zip [VNone; VInt 1] false = Raise TypeError
  /\ is_sorted_ascending_loop [VNone; VInt 1] false = Raise TypeError
  /\ is_sorted_ascending_range [VNone; VInt 1] false = Raise TypeError.
Proof. repeat split; reflexivity. Qed.

(** With a key that maps [None] to [0], the sequence [[None, 2, 1]] has
    the keys [0, 2, 1]: the check built on [itertools.pairwise] returns
    false, the one built on the backport returns true. *)
Example backport_hides_violation :
  let key : key_fn := fun x => if is_None x then Ok (VInt 0) else Ok x in
  is_sorted_ascending Imported [VNone; VInt 2; VInt 1] false (Some key)
  = Ok false
  /\ is_sorted_ascending ImportError [VNone; VInt 2; VInt 1] false (Some key)
     = Ok true
  /\ is_sorted_ascending ImportError [VInt 0; VInt 2; VInt 1] false None
     = Ok false.
Proof. repeat split; reflexivity. Qed.

(** C3, as stated, fails: in [[2, 1, "a"]] the adjacent keys [1] and
    ["a"] cannot be ordered, yet the call returns false without raising,
    because the pair [(2, 1)] ends the scan first. *)
Lemma incomparable_pair_not_reached :
  let lst := [VInt 2; VInt 1; VStr "a"] in
  (exists i x y, adjacent lst i x y /\ py_le x y = Raise TypeError)
  /\ is_sorted_ascending Imported lst false None = Ok false
  /\ is_sorted_ascending ImportError lst false None = Ok false.
Proof.
  split; [|split; reflexivity].
  exists 1%nat, (VInt 1), (VStr "a"). repeat split; reflexivity.
Qed.

(** C3 (amended).  With [itertools.pairwise], or on a sequence that does
    not start with [None] followed by more items: if the keys of two
    adjacent items cannot be ordered by the requested relation and every
    adjacent pair before them satisfies the relation, the call fails
    with [TypeError], handed to the caller, and returns no boolean;
    conversely, when the relation answers on every adjacent pair of
    keys, the call returns a boolean and raises nothing. *)
Theorem is_sorted_raises_at_first_incomparable (imp : import_outcome)
    (lst : list value) (strict : bool) (key : option key_fn) :
  sentinel_clash imp lst = false ->
  let k := key_or_identity key in
  let asc := fun a b => if strict then py_lt a b else py_le a b in
  let desc := fun a b => if strict then py_gt a b else py_ge a b in
  ((exists i x y, adjacent lst i x y /\ keys_incomparable k asc x y /\
                  holds_before k asc lst i) ->
   is_sorted_ascending imp lst strict key = Raise TypeError)
  /\ ((exists i x y, adjacent lst i x y /\ keys_incomparable k desc x y /\
                     holds_before k desc lst i) ->
      is_sorted_descending imp lst strict key = Raise TypeError)
  /\ ((forall i x y, adjacent lst i x y ->
         exists b, relation_gives k asc x y b) ->
      exists b, is_sorted_ascending imp lst strict key = Ok b)
  /\ ((forall i x y, adjacent lst i x y ->
         exists b, relation_gives k desc x y b) ->
      exists b, is_sorted_descending imp lst strict key = Ok b).
Proof.
  intros H k asc desc.
  rewrite (is_sorted_ascending_scan _ _ strict key H).
  rewrite (is_sorted_descending_scan _ _ strict key H).
  split; [|split; [|split]].
  - intros [i [x [y [Hadj [Hinc Hbefore]]]]].
    apply (scan_raise (compare_ascending strict) k lst).
    exists i, x, y. split; [exact Hadj|]. split; [|exact Hbefore].
    right. right. exact Hinc.
  - intros [i [x [y [Hadj [Hinc Hbefore]]]]].
    apply (scan_raise (compare_descending strict) k lst).
    exists i, x, y. split; [exact Hadj|]. split; [|exact Hbefore].
    right. right. exact Hinc.
  - apply (scan_total (compare_ascending strict) k lst).
  - apply (scan_total (compare_descending strict) k lst).
Qed.

Lemma is_sorted_raises_at_first_incomparable_witness :
  is_sorted_ascending ImportError [VInt 1; VInt 2; VStr "a"; VInt 0] true None
  = Raise TypeError.
Proof.
  apply (proj1 (is_sorted_raises_at_first_incomparable ImportError
                  [VInt 1; VInt 2; VStr "a"; VInt 0] true None eq_refl)).
  exists 1%nat, (VInt 2), (VStr "a").
  split; [split; reflexivity|]. split.
  - exists (VInt 2), (VStr "a"). repeat split; reflexivity.
  - intros [|j] x y Hj [Hx Hy]; [|lia].
    simpl in Hx, Hy. injection Hx as <-. injection Hy as <-.
    exists (VInt 1), (VInt 2). repeat split; reflexivity.
Defined.

Lemma pairwise_short (imp : import_outcome) (lst : list value) :
  (List.length lst <= 1)%nat -> pairwise imp lst = [].
Proof.
  destruct lst as [|a [|b lst]]; simpl; intros H; try lia.
  - destruct imp; reflexivity.
  - destruct imp; [reflexivity|]. destruct a; reflexivity.
Qed.

(** C5.  On a sequence of length 0 or 1, [is_sorted_ascending] and
    [is_sorted_descending] return true, whatever the strict flag and the
    key function. *)
Theorem short_sequences_are_sorted (imp : import_outcome)
    (lst : list value) (strict : bool) (key : option key_fn) :
  (List.length lst <= 1)%nat ->
  is_sorted_ascending imp lst strict key = Ok true
  /\ is_sorted_descending imp lst strict key = Ok true.
Proof.
  intros H. unfold is_sorted_ascending, is_sorted_descending.
  rewrite (pairwise_short imp lst H). split; reflexivity.
Qed.

Lemma short_sequences_are_sorted_witness :
  (List.length [VNone] <= 1)%nat /\
  is_sorted_ascending ImportError [VNone] true
    (Some (fun _ => Raise KeyError)) = Ok true /\
  is_sorted_descending ImportError [VNone] true
    (Some (fun _ => Raise KeyError)) = Ok true.
Proof.
  split; [simpl; lia|].
  apply (short_sequences_are_sorted ImportError [VNone] true
           (Some (fun _ => Raise KeyError))).
  simpl; lia.
Defined.

(** C9.  The backport [_pairwise] yields no pair when the first item is
    [None]; with the backport in use both checkers therefore return true
    on every sequence that starts with [None], whatever follows and
    whatever the strict flag and key.  [itertools.pairwise] does yield
    the pairs of such a sequence, and on one with at least two items the
    checkers built on it, called without a key, and the zip, loop and
    range versions all raise [TypeError] instead. *)
Theorem backport_stops_at_leading_None :
  (forall rest, _pairwise (VNone :: rest) = [])
  /\ (forall rest strict key,
        is_sorted_ascending ImportError (VNone :: rest) strict key = Ok true
        /\ is_sorted_descending ImportError (VNone :: rest) strict key
           = Ok true)
  /\ (forall y rest,
        itertools_pairwise (VNone :: y :: rest)
        = (VNone, y) :: itertools_pairwise (y :: rest))
  /\ (forall y rest strict,
        is_sorted_ascending Imported (VNone :: y :: rest) strict None
        = Raise TypeError
        /\ is_sorted_descending Imported (VNone :: y :: rest) strict None
           = Raise TypeError
        /\ is_sorted_ascending_zip (VNone :: y :: rest) strict
           = Raise TypeError
        /\ is_sorted_ascending_loop (VNone :: y :: rest) strict
           = Raise TypeError
        /\ is_sorted_ascending_range (VNone :: y :: rest) strict
           = Raise TypeError).
Proof.
  split; [reflexivity|]. split; [split; reflexivity|].
  split; [reflexivity|]. intros y rest strict.
  rewrite is_sorted_ascending_zip_scan, is_sorted_ascending_loop_scan,
    is_sorted_ascending_range_scan.
  unfold is_sorted_ascending, is_sorted_descending, scan, pairwise.
  rewrite itertools_pairwise_cons2. cbn [map keyed_compare py_all].
  unfold key_or_identity, compare_ascending, compare_descending,
    py_lt, py_le, py_gt, py_ge. cbn [bind].
  destruct strict; rewrite !py_compare_None_l; repeat split; reflexivity.
Qed.

Lemma scan_weaken (rel rel' : value -> value -> result bool) (key : key_fn)
    (ps : list (value * value)) :
  (forall a b, rel a b = Ok true -> rel' a b = Ok true) ->
  py_all (map (keyed_compare rel key) ps) = Ok true ->
  py_all (map (keyed_compare rel' key) ps) = Ok true.
Proof.
  intros Hrel. rewrite !py_all_true, !Forall_map.
  apply Forall_impl. intros [x y] H.
  apply keyed_compare_gives in H as [kx [ky [Hx [Hy H]]]].
  apply keyed_compare_gives. exists kx, ky. auto.
Qed.

(** C10.  When the strict check returns true, so does the non-strict
    one, for [is_sorted_ascending] and for [is_sorted_descending]
    alike. *)
Theorem strict_implies_non_strict (imp : import_outcome) (lst : list value)
    (key : option key_fn) :
  (is_sorted_ascending imp lst true key = Ok true ->
   is_sorted_ascending imp lst false key = Ok true)
  /\ (is_sorted_descending imp lst true key = Ok true ->
      is_sorted_descending imp lst false key = Ok true).
Proof.
  unfold is_sorted_ascending, is_sorted_descending. split.
  - apply scan_weaken. intros a b. apply (py_compare_weaken OpLt).
  - apply scan_weaken. intros a b. apply (py_compare_weaken OpGt).
Qed.

Lemma strict_implies_non_strict_witness :
  is_sorted_ascending Imported [VInt 1; VInt 2; VInt 5] true None = Ok true /\
  is_sorted_ascending Imported [VInt 1; VInt 2; VInt 5] false None = Ok true.
Proof.
  split; [reflexivity|].
  apply (proj1 (strict_implies_non_strict Imported
                  [VInt 1; VInt 2; VInt 5] None)).
  reflexivity.
Defined.

(* ------------------------------------------------------------------ *)
(** ** Sequences whose adjacent items can be ordered *)

Lemma comparable_pairs (rel : value -> value -> result bool)
    (lst : list value) :
  (forall i x y, adjacent lst i x y -> exists b, rel x y = Ok b) ->
  Forall (fun p => exists b, rel (fst p) (snd p) = Ok b)
         (itertools_pairwise lst).
Proof.
  intros H. apply Forall_forall. intros [x y] Hp.
  apply In_nth_error in Hp as [i Hi].
  apply itertools_pairwise_nth in Hi. exact (H i x y Hi).
Qed.

Lemma comparable_gives (rel : value -> value -> result bool)
    (lst : list value) :
  (forall i x y, adjacent lst i x y -> exists b, rel x y = Ok b) ->
  forall i x y, adjacent lst i x y ->
    exists b, relation_gives (key_or_identity None) rel x y b.
Proof.
  intros H i x y Hadj. destruct (H i x y Hadj) as [b Hb].
  exists b, x, y. auto.
Qed.

(** A sequence whose adjacent items can all be ordered has no [None] in
    a pair, so the backport and [itertools.pairwise] see the same
    pairs. *)
Lemma comparable_no_clash (op : cmp_op) (imp : import_outcome)
    (lst : list value) :
  (forall i x y, adjacent lst i x y -> exists b, py_compare op x y = Ok b) ->
  sentinel_clash imp lst = false.
Proof.
  intros H. destruct imp; [reflexivity|].
  destruct lst as [|[] [|y rest]]; try reflexivity.
  destruct (H 0%nat VNone y) as [b Hb]; [split; reflexivity|].
  rewrite py_compare_None_l in Hb. discriminate.
Qed.

Lemma comparable_no_clash_rev (op : cmp_op) (imp : import_outcome)
    (lst : list value) :
  (forall i x y, adjacent lst i x y -> exists b, py_compare op x y = Ok b) ->
  sentinel_clash imp (rev lst) = false.
Proof.
  intros H. apply comparable_pairs in H. rewrite Forall_forall in H.
  destruct imp; [reflexivity|].
  pose proof (itertools_pairwise_rev lst) as E.
  destruct (rev lst) as [|[] [|y rest]]; try reflexivity.
  rewrite itertools_pairwise_cons2 in E.
  assert (Hin : In (VNone, y) (rev (map swap_pair (itertools_pairwise lst))))
    by (rewrite <- E; left; reflexivity).
  apply in_rev, in_map_iff in Hin as [[a b] [Hswap Hin]].
  unfold swap_pair in Hswap. simpl in Hswap. injection Hswap as -> ->.
  destruct (H _ Hin) as [c Hc]. simpl in Hc.
  rewrite py_compare_None_r in Hc. discriminate.
Qed.

Lemma compare_descending_swap (strict : bool) (x y : value) :
  compare_descending strict y x = compare_ascending strict x y.
Proof.
  unfold compare_descending, compare_ascending, py_lt, py_le, py_gt, py_ge.
  destruct strict; symmetry; apply py_compare_swap.
Qed.

Lemma compare_ascending_op (strict : bool) :
  compare_ascending strict
  = py_compare (if strict then OpLt else OpLe).
Proof. destruct strict; reflexivity. Qed.

Lemma compare_descending_op (strict : bool) :
  compare_descending strict
  = py_compare (if strict then OpGt else OpGe).
Proof. destruct strict; reflexivity. Qed.

(** C4, as stated, fails: [is_sorted_ascending([2, 1, "a"])] returns
    false, while [is_sorted_descending(["a", 1, 2])] raises, since each
    scan stops at the first pair it meets. *)
Lemma reverse_scan_meets_other_pair :
  is_sorted_ascending Imported [VInt 2; VInt 1; VStr "a"] false None
  = Ok false
  /\ is_sorted_descending Imported (rev [VInt 2; VInt 1; VStr "a"]) false None
     = Raise TypeError.
Proof. split; reflexivity. Qed.

(** C4 (amended).  For every sequence [S] whose adjacent items can be
    ordered by the relation of the ascending check, and every strict
    flag [s], [is_sorted_ascending(S, strict=s)] and
    [is_sorted_descending(reverse(S), strict=s)] return the same
    boolean. *)
Theorem ascending_is_descending_of_reverse (imp : import_outcome)
    (S : list value) (s : bool) :
  (forall i x y, adjacent S i x y ->
     exists b, (if s then py_lt x y else py_le x y) = Ok b) ->
  exists b,
    is_sorted_ascending imp S s None = Ok b
    /\ is_sorted_descending imp (rev S) s None = Ok b.
Proof.
  intros H.
  assert (H' : forall i x y, adjacent S i x y ->
                 exists b, compare_ascending s x y = Ok b)
    by (intros i x y Hadj; destruct s; exact (H i x y Hadj)).
  assert (Hclash : sentinel_clash imp S = false).
  { apply (comparable_no_clash (if s then OpLt else OpLe)).
    rewrite <- compare_ascending_op. exact H'. }
  assert (Hclash_rev : sentinel_clash imp (rev S) = false).
  { apply (comparable_no_clash_rev (if s then OpLt else OpLe)).
    rewrite <- compare_ascending_op. exact H'. }
  rewrite (is_sorted_ascending_scan _ _ s None Hclash).
  rewrite (is_sorted_descending_scan _ _ s None Hclash_rev).
  pose proof (scan_items_total _ _ _ (comparable_gives _ _ H')) as Htotal.
  assert (E : scan (compare_descending s) (key_or_identity None) (rev S)
              = scan (compare_ascending s) (key_or_identity None) S).
  { unfold scan. rewrite itertools_pairwise_rev, map_rev, map_map.
    rewrite (map_ext _ (keyed_compare (compare_ascending s)
                          (key_or_identity None))).
    - apply py_all_rev. exact Htotal.
    - intros [x y]. simpl. apply compare_descending_swap. }
  rewrite E. unfold scan. rewrite (py_all_total _ Htotal). eauto.
Qed.

Lemma ascending_is_descending_of_reverse_witness :
  exists b,
    is_sorted_ascending ImportError [VInt 1; VInt 1; VInt 3] true None = Ok b
    /\ is_sorted_descending ImportError (rev [VInt 1; VInt 1; VInt 3]) true
         None = Ok b.
Proof.
  apply (ascending_is_descending_of_reverse ImportError
           [VInt 1; VInt 1; VInt 3] true).
  answer_at_each_position.
Defined.

(** C6, as stated, fails: [["a", 1, 1]] holds the adjacent equal pair
    [(1, 1)], yet the strict checks do not return false; they raise on
    the pair [("a", 1)], met first. *)
Lemma equal_pair_behind_incomparable :
  let lst := [VStr "a"; VInt 1; VInt 1] in
  (exists i x y, adjacent lst i x y /\ py_eq x y = true)
  /\ is_sorted_ascending Imported lst true None = Raise TypeError
  /\ is_sorted_descending Imported lst true None = Raise TypeError.
Proof.
  split; [|split; reflexivity].
  exists 1%nat, (VInt 1), (VInt 1). repeat split; reflexivity.
Qed.

Lemma scan_equal_pair (op : cmp_op) (lst : list value) :
  is_strict_op op = true ->
  (exists i x y, adjacent lst i x y /\ py_eq x y = true) ->
  (forall i x y, adjacent lst i x y -> exists b, py_compare op x y = Ok b) ->
  scan (py_compare op) (key_or_identity None) lst = Ok false.
Proof.
  intros Hop [i [x [y [Hadj Heq]]]] H.
  destruct (scan_total _ _ _ (comparable_gives _ _ H)) as [[|] Hb]; [|exact Hb].
  exfalso. rewrite scan_true in Hb.
  destruct (Hb i x y Hadj) as [kx [ky [[= <-] [[= <-] Hc]]]].
  apply (py_compare_of_eq _ _ _ _ Heq) in Hc.
  rewrite (test_op_strict_Eq _ Hop) in Hc. discriminate.
Qed.

(** C6 (amended).  For every sequence whose adjacent items can be
    ordered and which holds at least one adjacent pair of equal items,
    [is_sorted_ascending] with [strict=True] returns false, and so does
    [is_sorted_descending] with [strict=True]. *)
Theorem adjacent_equal_fails_strict (imp : import_outcome)
    (lst : list value) :
  (exists i x y, adjacent lst i x y /\ py_eq x y = true) ->
  ((forall i x y, adjacent lst i x y -> exists b, py_lt x y = Ok b) ->
   is_sorted_ascending imp lst true None = Ok false)
  /\ ((forall i x y, adjacent lst i x y -> exists b, py_gt x y = Ok b) ->
      is_sorted_descending imp lst true None = Ok false).
Proof.
  intros Heq. split; intros H.
  - rewrite (is_sorted_ascending_scan _ _ true None
               (comparable_no_clash OpLt imp _ H)).
    apply (scan_equal_pair OpLt); auto.
  - rewrite (is_sorted_descending_scan _ _ true None
               (comparable_no_clash OpGt imp _ H)).
    apply (scan_equal_pair OpGt); auto.
Qed.

Lemma adjacent_equal_fails_strict_witness :
  is_sorted_ascending ImportError [VInt 5; VInt 5; VInt 5] true None
  = Ok false.
Proof.
  apply (proj1 (adjacent_equal_fails_strict ImportError
                  [VInt 5; VInt 5; VInt 5]
                  (ex_intro _ 0%nat (ex_intro _ (VInt 5) (ex_intro _ (VInt 5)
                     (conj (conj eq_refl eq_refl) eq_refl)))))).
  answer_at_each_position.
Defined.

Lemma py_map_Forall2 (key : key_fn) (seq ks : list value) :
  py_map key seq = Ok ks -> Forall2 (fun x kx => key x = Ok kx) seq ks.
Proof.
  revert ks. induction seq as [|x seq IH]; simpl; intros ks H.
  - injection H as <-. constructor.
  - destruct (key x) as [kx|] eqn:Ex; [|discriminate]. simpl in H.
    destruct (py_map key seq) as [ks'|]; [|discriminate]. simpl in H.
    injection H as <-. constructor; auto.
Qed.

Lemma keyed_pairs_of_keys (rel : value -> value -> result bool)
    (key : key_fn) (seq ks : list value) :
  Forall2 (fun x kx => key x = Ok kx) seq ks ->
  map (keyed_compare rel key) (itertools_pairwise seq)
  = map (keyed_compare rel (key_or_identity None)) (itertools_pairwise ks).
Proof.
  induction 1 as [|x kx seq ks Hx Hrest IH]; [reflexivity|].
  destruct Hrest as [|y ky seq ks Hy Hrest]; [reflexivity|].
  rewrite !itertools_pairwise_cons2. cbn [map]. f_equal; [|exact IH].
  simpl. rewrite Hx, Hy. reflexivity.
Qed.

(** C7, as stated, fails: with [key=lambda e: e["age"]] on
    [[{"age": 5}, {"age": 3}, {}]] the keyed check returns false at the
    first pair, while mapping the key over the sequence raises
    [KeyError] on the last item, so that there is no mapped sequence to
    check. *)
Lemma key_is_applied_lazily :
  let key := fun e => subscript e "age" in
  let seq := [record_with_age 5; record_with_age 3; VDict []] in
  is_sorted_ascending Imported seq false (Some key) = Ok false
  /\ (ks <- py_map key seq ;; is_sorted_ascending Imported ks false None)
     = Raise KeyError.
Proof. split; reflexivity. Qed.

(** C7 (amended).  For every sequence and key function that returns on
    every item, with [itertools.pairwise] or when neither the sequence
    nor the sequence of its keys starts with [None] followed by more
    items: [is_sorted_ascending(seq, strict=s, key=k)] equals
    [is_sorted_ascending] applied, with no key, to the sequence obtained
    by mapping [k] over [seq].  In particular
    [is_sorted_ascending([{"age":3},{"age":5}], key=lambda e: e["age"])]
    returns true. *)
Theorem key_checks_projections :
  (forall imp seq ks s k,
     py_map k seq = Ok ks ->
     sentinel_clash imp seq = false ->
     sentinel_clash imp ks = false ->
     is_sorted_ascending imp seq s (Some k) = is_sorted_ascending imp ks s None)
  /\ (forall imp,
        is_sorted_ascending imp
          [record_with_age 3; record_with_age 5] false
          (Some (fun e => subscript e "age")) = Ok true).
Proof.
  split.
  - intros imp seq ks s k Hks Hseq Hkeys.
    rewrite (is_sorted_ascending_scan _ _ s (Some k) Hseq).
    rewrite (is_sorted_ascending_scan _ _ s None Hkeys).
    unfold scan. f_equal.
    apply (keyed_pairs_of_keys _ _ _ _ (py_map_Forall2 _ _ _ Hks)).
  - intros []; reflexivity.
Qed.

Lemma key_checks_projections_witness :
  let k := fun e => subscript e "age" in
  is_sorted_ascending ImportError
    [record_with_age 5; record_with_age 3] true (Some k)
  = is_sorted_ascending ImportError [VInt 5; VInt 3] true None.
Proof.
  intros k.
  apply (proj1 key_checks_projections ImportError
           [record_with_age 5; record_with_age 3]
           [VInt 5; VInt 3] true k); reflexivity.
Defined.

 
Lemma pure_key_or_identity (key : option key_st) (f : option key_fn) :
  pure_key_arg key f ->
  pure_key (key_st_or_identity key) (key_or_identity f).
Proof.
  destruct key, f; simpl; intros H; try contradiction; [exact H|].
  intros x st. reflexivity.
Qed.

Lemma scan_from_pure (compare : value -> value -> result bool)
    (k : key_st) (f : key_fn) (st : store) (lst : loc) :
  pure_key k f ->
  forall rest pre a fuel,
    st lst = pre ++ rest ->
    (List.length rest < fuel)%nat ->
    scan_from fuel compare k a
      {| it_seq := lst; it_index := List.length pre |} st
    = Some (py_all (map (keyed_compare compare f) (_pairwise_loop a rest)),
            st).
Proof.
  intros Hk. induction rest as [|b rest IH]; intros pre a fuel Hst Hfuel;
    (destruct fuel as [|fuel]; [simpl in Hfuel; lia|]).
  - simpl. unfold bindM, next. simpl. rewrite Hst.
    rewrite nth_error_app2, Nat.sub_diag by lia. reflexivity.
  - simpl. unfold bindM at 1. unfold next. simpl. rewrite Hst.
    rewrite nth_error_app2, Nat.sub_diag by lia. simpl.
    unfold bindM at 1. rewrite (Hk a st).
    destruct (f a) as [ka|ea]; [|reflexivity]. simpl.
    unfold bindM at 1. rewrite (Hk b st).
    destruct (f b) as [kb|eb]; [|reflexivity]. simpl.
    unfold bindM, lift.
    destruct (compare ka kb) as [[|]|ec]; try reflexivity.
    specialize (IH (pre ++ [b]) b fuel).
    rewrite length_app in IH. simpl in IH.
    replace (List.length pre + 1)%nat with (S (List.length pre)) in IH by lia.
    apply IH.
    + rewrite <- app_assoc. exact Hst.
    + simpl in Hfuel. lia.
Qed.

Lemma scan_in_store_pure (imp : import_outcome)
    (compare : value -> value -> result bool)
    (k : key_st) (f : key_fn) (st : store) (lst : loc) (fuel : nat) :
  pure_key k f ->
  (List.length (st lst) <= fuel)%nat ->
  scan_in_store imp fuel compare k lst st
  = Some (py_all (map (keyed_compare compare f) (pairwise imp (st lst))), st).
Proof.
  intros Hk Hfuel.
  destruct (st lst) as [|a rest] eqn:Hst.
  - destruct imp; unfold scan_in_store, next_or, bindM, next, iter; simpl;
      rewrite Hst; reflexivity.
  - assert (Hscan : scan_from fuel compare k a
                      {| it_seq := lst; it_index := 1 |} st
                    = Some (py_all (map (keyed_compare compare f)
                                      (_pairwise_loop a rest)), st)).
    { apply (scan_from_pure compare k f st lst Hk rest [a] a fuel).
      - exact Hst.
      - simpl in Hfuel. lia. }
    destruct imp; unfold scan_in_store, next_or, bindM, next, iter; simpl;
      rewrite Hst; simpl.
    + rewrite Hscan, _pairwise_loop_itertools. reflexivity.
    + unfold pairwise, _pairwise, next_default.
      destruct (is_None a); [reflexivity | exact Hscan].
Qed.

(** C8.  Run against a store of list objects with a key function that
    is absent or pure, a call of [is_sorted_ascending] or of
    [is_sorted_descending] ends as soon as the fuel covers the length of
    the list, returns what the checker computes from the items of the
    list, the strict flag and the key alone, and leaves the store, and
    with it the input list, exactly as it was; a second call therefore
    returns the same. *)
Theorem checkers_only_read (imp : import_outcome) (st : store) (lst : loc)
    (strict : bool) (key : option key_st) (f : option key_fn) (fuel : nat) :
  pure_key_arg key f ->
  (List.length (st lst) <= fuel)%nat ->
  let asc := is_sorted_ascending_in_store imp fuel lst strict key in
  let desc := is_sorted_descending_in_store imp fuel lst strict key in
  asc st = Some (is_sorted_ascending imp (st lst) strict f, st)
  /\ desc st = Some (is_sorted_descending imp (st lst) strict f, st)
  /\ bindM asc (fun r1 => bindM asc (fun r2 => ret (r1, r2))) st
     = Some (b <- is_sorted_ascending imp (st lst) strict f ;; Ok (b, b), st)
  /\ bindM desc (fun r1 => bindM desc (fun r2 => ret (r1, r2))) st
     = Some (b <- is_sorted_descending imp (st lst) strict f ;; Ok (b, b), st).
Proof.
  intros Hkey Hfuel asc desc.
  apply pure_key_or_identity in Hkey.
  assert (Hasc : asc st
                 = Some (is_sorted_ascending imp (st lst) strict f, st))
    by (apply scan_in_store_pure; assumption).
  assert (Hdesc : desc st
                  = Some (is_sorted_descending imp (st lst) strict f, st))
    by (apply scan_in_store_pure; assumption).
  repeat split; try assumption.
  - unfold bindM. rewrite Hasc.
    destruct (is_sorted_ascending imp (st lst) strict f); [|reflexivity].
    rewrite Hasc. reflexivity.
  - unfold bindM. rewrite Hdesc.
    destruct (is_sorted_descending imp (st lst) strict f); [|reflexivity].
    rewrite Hdesc. reflexivity.
Qed.

Lemma checkers_only_read_witness :
  let st : store := fun _ => [VInt 1; VInt 3; VInt 2] in
  is_sorted_ascending_in_store ImportError 3 0 false None st
  = Some (is_sorted_ascending ImportError [VInt 1; VInt 3; VInt 2] false None,
          st).
Proof.
  intros st.
  apply (proj1 (checkers_only_read ImportError st 0%nat false None None 3
                  I (le_n 3))).
Defined.

(** A key function that appends to the list it is sorting by is not
    pure, and the call then does change the list. *)
Example impure_key_changes_the_list :
  let st : store := fun _ => [VInt 1; VInt 2] in
  let key : key_st := fun x => bindM (list_append 0 x) (fun _ => ret x) in
  exists r st',
    is_sorted_ascending_in_store Imported 5 0 false (Some key) st
    = Some (r, st')
    /\ st' 0%nat = [VInt 1; VInt 2; VInt 1; VInt 2; VInt 2; VInt 1].
Proof. eexists. eexists. split; reflexivity. Qed.

(* ------------------------------------------------------------------ *)
(** ** The order behind the four operators *)

Lemma seq_compare_cmp3 (op : cmp_op) (xs : list value) :
  Forall (fun a => forall b,
            py_compare op a b
            = match py_cmp3 a b with
              | Some c => Ok (test_op op c)
              | None => Raise TypeError
              end) xs ->
  forall ys,
    seq_compare py_eq (py_compare op) op xs ys
    = match seq_cmp3 py_cmp3 xs ys with
      | Some c => Ok (test_op op c)
      | None => Raise TypeError
      end.
Proof.
  induction 1 as [|a xs Ha _ IH]; intros [|b ys]; simpl; try reflexivity.
  destruct (py_eq a b); [apply IH | apply Ha].
Qed.

(** Each operator reads the same three-way comparison, and raises
    [TypeError] exactly when there is none. *)
Lemma py_compare_cmp3 (op : cmp_op) (x y : value) :
  py_compare op x y
  = match py_cmp3 x y with
    | Some c => Ok (test_op op c)
    | None => Raise TypeError
    end.
Proof.
  revert y. induction x using value_ind; intros []; simpl;
    try reflexivity; apply seq_compare_cmp3; assumption.
Qed.

Lemma py_compare_raises_TypeError (op : cmp_op) (x y : value) (e : exn) :
  py_compare op x y = Raise e -> e = TypeError.
Proof.
  rewrite py_compare_cmp3. destruct (py_cmp3 x y); congruence.
Qed.

Lemma py_compare_raise_any_op (op op' : cmp_op) (x y : value) (e : exn) :
  py_compare op x y = Raise e -> py_compare op' x y = Raise e.
Proof.
  rewrite !py_compare_cmp3. destruct (py_cmp3 x y); congruence.
Qed.

(* ------------------------------------------------------------------ *)
(** ** Pairs of a sequence and of its parts *)

Lemma itertools_pairwise_length (l : list value) :
  List.length (itertools_pairwise l) = (List.length l - 1)%nat.
Proof.
  induction l as [|a [|b l] IH]; try reflexivity.
  rewrite itertools_pairwise_cons2. simpl List.length in *. lia.
Qed.

Lemma itertools_pairwise_app_prefix (l1 l2 : list value) :
  exists tail,
    itertools_pairwise (l1 ++ l2) = itertools_pairwise l1 ++ tail.
Proof.
  induction l1 as [|a [|b l1] IH].
  - exists (itertools_pairwise l2). reflexivity.
  - exists (itertools_pairwise (a :: l2)). reflexivity.
  - destruct IH as [tail IH]. exists tail.
    change ((a :: b :: l1) ++ l2) with (a :: b :: (l1 ++ l2)).
    rewrite !itertools_pairwise_cons2.
    change (b :: l1 ++ l2) with ((b :: l1) ++ l2). rewrite IH. reflexivity.
Qed.

Lemma pairwise_app_prefix (imp : import_outcome) (l1 l2 : list value) :
  exists tail, pairwise imp (l1 ++ l2) = pairwise imp l1 ++ tail.
Proof.
  destruct imp; [apply itertools_pairwise_app_prefix|].
  destruct l1 as [|a l1].
  - exists (_pairwise l2). reflexivity.
  - unfold pairwise, _pairwise, next_default. cbn [app].
    destruct (is_None a); [exists []; reflexivity|].
    rewrite !_pairwise_loop_itertools.
    apply (itertools_pairwise_app_prefix (a :: l1) l2).
Qed.

Lemma itertools_pairwise_join (p q : list value) (x y : value) :
  itertools_pairwise ((p ++ [x]) ++ y :: q)
  = itertools_pairwise (p ++ [x]) ++ (x, y) :: itertools_pairwise (y :: q).
Proof.
  induction p as [|a [|b p] IH]; try reflexivity.
  change (((a :: b :: p) ++ [x]) ++ y :: q)
    with (a :: b :: ((p ++ [x]) ++ y :: q)).
  change ((a :: b :: p) ++ [x]) with (a :: b :: (p ++ [x])).
  rewrite !itertools_pairwise_cons2.
  change (b :: (p ++ [x]) ++ y :: q) with (((b :: p) ++ [x]) ++ y :: q).
  rewrite IH. reflexivity.
Qed.

Lemma py_all_app_stops (g1 g2 : list (result bool)) (r : result bool) :
  r <> Ok true -> py_all g1 = r -> py_all (g1 ++ g2) = r.
Proof.
  intros Hr. induction g1 as [|c g1 IH]; simpl; [congruence|].
  destruct c as [[|]|e]; simpl; auto.
Qed.

Lemma py_all_app_true (g1 g2 : list (result bool)) :
  py_all (g1 ++ g2) = Ok true <-> py_all g1 = Ok true /\ py_all g2 = Ok true.
Proof. rewrite !py_all_true. apply Forall_app. Qed.

Lemma py_all_app_item (g1 g2 : list (result bool)) (c : result bool) :
  py_all (g1 ++ c :: g2) = Ok true
  <-> py_all g1 = Ok true /\ c = Ok true /\ py_all g2 = Ok true.
Proof. rewrite !py_all_true, Forall_app, Forall_cons_iff. reflexivity. Qed.

Lemma sentinel_clash_true (imp : import_outcome) (lst : list value)
    (strict : bool) (key : option key_fn) :
  sentinel_clash imp lst = true ->
  is_sorted_ascending imp lst strict key = Ok true
  /\ is_sorted_descending imp lst strict key = Ok true.
Proof.
  destruct imp; [discriminate|].
  destruct lst as [|[] [|y rest]]; try discriminate.
  split; reflexivity.
Qed.

(** X1.  When [itertools.pairwise] is in use, or the sequence does not
    start with [None] followed by more items, [pairwise(lst)] yields one
    pair less than [lst] has items (none for an empty [lst]), and its
    [i]-th pair is [(lst[i], lst[i+1])]: consecutive, overlapping, in
    order. *)
Theorem pairwise_yields_consecutive_pairs (imp : import_outcome)
    (lst : list value) :
  sentinel_clash imp lst = false ->
  List.length (pairwise imp lst) = (List.length lst - 1)%nat
  /\ forall i x y,
       nth_error (pairwise imp lst) i = Some (x, y)
       <-> nth_error lst i = Some x /\ nth_error lst (S i) = Some y.
Proof.
  intros H. rewrite (pairwise_no_clash _ _ H). split.
  - apply itertools_pairwise_length.
  - intros i x y. apply itertools_pairwise_nth.
Qed.

Lemma pairwise_yields_consecutive_pairs_witness :
  List.length (pairwise ImportError [VInt 7; VNone; VStr "z"]) = 2%nat.
Proof.
  apply (proj1 (pairwise_yields_consecutive_pairs ImportError
                  [VInt 7; VNone; VStr "z"] eq_refl)).
Defined.

(** X2.  On every sequence and strict flag the zip, loop and range
    versions give one and the same outcome, boolean or exception, and
    it is the outcome of [is_sorted_ascending] called without a key
    when [itertools.pairwise] is in use. *)
Theorem alternatives_agree_with_each_other (lst : list value)
    (strict : bool) :
  is_sorted_ascending_loop lst strict = is_sorted_ascending_zip lst strict
  /\ is_sorted_ascending_range lst strict
     = is_sorted_ascending_zip lst strict
  /\ is_sorted_ascending Imported lst strict None
     = is_sorted_ascending_zip lst strict.
Proof.
  rewrite is_sorted_ascending_zip_scan, is_sorted_ascending_loop_scan,
    is_sorted_ascending_range_scan. auto.
Qed.

Lemma scan_raises_TypeError (op : cmp_op) (lst : list value) (e : exn) :
  scan (py_compare op) (key_or_identity None) lst = Raise e ->
  e = TypeError
  /\ exists i x y, adjacent lst i x y /\
       forall op', py_compare op' x y = Raise TypeError.
Proof.
  intros H. apply scan_raise in H as [i [x [y [Hadj [Hr _]]]]].
  destruct Hr as [Hr | [[kx [_ Hr]] | [kx [ky [[= <-] [[= <-] Hr]]]]]];
    try discriminate.
  pose proof (py_compare_raises_TypeError _ _ _ _ Hr) as ->.
  split; [reflexivity|]. exists i, x, y. split; [exact Hadj|].
  intros op'. apply (py_compare_raise_any_op op). exact Hr.
Qed.

(** X3.  Called without a key, no version of the check raises anything
    but [TypeError], and only because two adjacent items cannot be
    ordered: the indices that the loop and range versions compute never
    leave the sequence, so [IndexError] cannot occur. *)
Theorem only_TypeError_without_key (imp : import_outcome)
    (lst : list value) (strict : bool) (e : exn) :
  is_sorted_ascending imp lst strict None = Raise e
  \/ is_sorted_descending imp lst strict None = Raise e
  \/ is_sorted_ascending_zip lst strict = Raise e
  \/ is_sorted_ascending_loop lst strict = Raise e
  \/ is_sorted_ascending_range lst strict = Raise e ->
  e = TypeError
  /\ exists i x y, adjacent lst i x y /\
       forall op, py_compare op x y = Raise TypeError.
Proof.
  rewrite is_sorted_ascending_zip_scan, is_sorted_ascending_loop_scan,
    is_sorted_ascending_range_scan.
  rewrite compare_ascending_op.
  destruct (sentinel_clash imp lst) eqn:Hclash.
  - destruct (sentinel_clash_true imp lst strict None Hclash) as [-> ->].
    intros [H | [H | [H | [H | H]]]]; try discriminate;
      apply (scan_raises_TypeError _ _ _ H).
  - rewrite (is_sorted_ascending_scan _ _ strict None Hclash).
    rewrite (is_sorted_descending_scan _ _ strict None Hclash).
    rewrite compare_ascending_op, compare_descending_op.
    intros [H | [H | [H | [H | H]]]]; apply (scan_raises_TypeError _ _ _ H).
Qed.

Lemma only_TypeError_without_key_witness :
  TypeError = TypeError
  /\ exists i x y, adjacent [VInt 1; VStr "a"] i x y /\
       forall op, py_compare op x y = Raise TypeError.
Proof.
  apply (only_TypeError_without_key Imported [VInt 1; VStr "a"] false
           TypeError).
  right. right. right. left. reflexivity.
Defined.

(** X4.  Early exit: once a sequence makes a check return false or
    raise, whatever is appended to it does not change that outcome, be
    it items that cannot be ordered or on which the key raises.  This
    holds for both checkers, with any key and either [pairwise], and for
    the zip, loop and range versions. *)
Theorem outcome_fixed_by_failing_prefix (imp : import_outcome)
    (l1 l2 : list value) (strict : bool) (key : option key_fn)
    (r : result bool) :
  r <> Ok true ->
  (is_sorted_ascending imp l1 strict key = r ->
   is_sorted_ascending imp (l1 ++ l2) strict key = r)
  /\ (is_sorted_descending imp l1 strict key = r ->
      is_sorted_descending imp (l1 ++ l2) strict key = r)
  /\ (is_sorted_ascending_zip l1 strict = r ->
      is_sorted_ascending_zip (l1 ++ l2) strict = r)
  /\ (is_sorted_ascending_loop l1 strict = r ->
      is_sorted_ascending_loop (l1 ++ l2) strict = r)
  /\ (is_sorted_ascending_range l1 strict = r ->
      is_sorted_ascending_range (l1 ++ l2) strict = r).
Proof.
  intros Hr.
  rewrite !is_sorted_ascending_zip_scan, !is_sorted_ascending_loop_scan,
    !is_sorted_ascending_range_scan.
  unfold is_sorted_ascending, is_sorted_descending, scan.
  destruct (pairwise_app_prefix imp l1 l2) as [tail ->].
  destruct (itertools_pairwise_app_prefix l1 l2) as [tail' ->].
  rewrite !map_app.
  repeat split; apply py_all_app_stops; exact Hr.
Qed.

Lemma outcome_fixed_by_failing_prefix_witness :
  is_sorted_ascending ImportError ([VInt 3; VInt 1] ++ [VStr "a"; VNone])
    true None = Ok false.
Proof.
  apply (proj1 (outcome_fixed_by_failing_prefix ImportError
                  [VInt 3; VInt 1] [VStr "a"; VNone] true None (Ok false)
                  ltac:(discriminate))).
  reflexivity.
Defined.

Lemma sentinel_clash_prefix (imp : import_outcome) (l1 l2 : list value) :
  sentinel_clash imp (l1 ++ l2) = false -> sentinel_clash imp l1 = false.
Proof.
  destruct imp; [reflexivity|].
  destruct l1 as [|[] [|b l1]]; simpl; auto.
Qed.

(** X5.  Joining two runs: with [itertools.pairwise] in use, or when
    neither the whole sequence nor its second part starts with [None]
    followed by more items, a sequence that ends in [x] followed by one
    that starts with [y] passes [is_sorted_ascending] if and only if
    both parts pass and the keys of [x] and [y] satisfy the relation;
    likewise for [is_sorted_descending]. *)
Theorem sorted_join (imp : import_outcome) (p q : list value) (x y : value)
    (strict : bool) (key : option key_fn) :
  sentinel_clash imp ((p ++ [x]) ++ y :: q) = false ->
  sentinel_clash imp (y :: q) = false ->
  (is_sorted_ascending imp ((p ++ [x]) ++ y :: q) strict key = Ok true
   <-> is_sorted_ascending imp (p ++ [x]) strict key = Ok true
       /\ relation_gives (key_or_identity key)
            (fun a b => if strict then py_lt a b else py_le a b) x y true
       /\ is_sorted_ascending imp (y :: q) strict key = Ok true)
  /\ (is_sorted_descending imp ((p ++ [x]) ++ y :: q) strict key
      = Ok true
      <-> is_sorted_descending imp (p ++ [x]) strict key = Ok true
          /\ relation_gives (key_or_identity key)
               (fun a b => if strict then py_gt a b else py_ge a b) x y true
          /\ is_sorted_descending imp (y :: q) strict key = Ok true).
Proof.
  intros Hwhole Hsecond.
  pose proof (sentinel_clash_prefix _ _ _ Hwhole) as Hfirst.
  rewrite !(is_sorted_ascending_scan _ _ strict key Hwhole),
    !(is_sorted_ascending_scan _ _ strict key Hfirst),
    !(is_sorted_ascending_scan _ _ strict key Hsecond),
    !(is_sorted_descending_scan _ _ strict key Hwhole),
    !(is_sorted_descending_scan _ _ strict key Hfirst),
    !(is_sorted_descending_scan _ _ strict key Hsecond).
  unfold scan.
  rewrite itertools_pairwise_join, !map_app. cbn [map].
  rewrite !py_all_app_item, !keyed_compare_gives. split; reflexivity.
Qed.

Lemma sorted_join_witness :
  is_sorted_ascending ImportError (([VInt 1] ++ [VInt 2]) ++ VInt 2 :: [VInt 5])
    false None = Ok true
  <-> is_sorted_ascending ImportError ([VInt 1] ++ [VInt 2]) false None
      = Ok true
      /\ relation_gives (key_or_identity None)
           (fun a b => if false then py_lt a b else py_le a b)
           (VInt 2) (VInt 2) true
      /\ is_sorted_ascending ImportError (VInt 2 :: [VInt 5]) false None
         = Ok true.
Proof.
  apply (proj1 (sorted_join ImportError [VInt 1] [VInt 5] (VInt 2) (VInt 2)
                  false None eq_refl eq_refl)).
Defined.

(* ------------------------------------------------------------------ *)
(** ** Equal items, strict and non-strict checks *)

Lemma seq_cmp3_Eq (xs : list value) :
  Forall (fun a => forall b, py_cmp3 a b = Some Eq -> py_eq a b = true) xs ->
  forall ys, seq_cmp3 py_cmp3 xs ys = Some Eq -> seq_eq py_eq xs ys = true.
Proof.
  induction 1 as [|a xs Ha _ IH]; intros [|b ys]; simpl;
    try discriminate; try reflexivity.
  destruct (py_eq a b) eqn:E; [apply IH|].
  intros H. rewrite (Ha b H) in E. discriminate.
Qed.

(** Two values that stand level in the order are equal. *)
Lemma py_cmp3_Eq (x y : value) : py_cmp3 x y = Some Eq -> py_eq x y = true.
Proof.
  revert y. induction x using value_ind; intros []; simpl;
    try discriminate;
    try (intros [= E]; apply Z.compare_eq_iff in E; apply Z.eqb_eq; exact E).
  - intros [= E]. apply String.compare_eq_iff in E. apply String.eqb_eq, E.
  - apply seq_cmp3_Eq; assumption.
  - apply seq_cmp3_Eq; assumption.
Qed.

(** Two equal values that can be ordered stand level. *)
Lemma py_eq_cmp3 (x y : value) (c : comparison) :
  py_eq x y = true -> py_cmp3 x y = Some c -> c = Eq.
Proof.
  intros E H.
  pose proof (py_compare_of_eq OpLt x y (test_op OpLt c) E) as Hlt.
  pose proof (py_compare_of_eq OpGt x y (test_op OpGt c) E) as Hgt.
  rewrite py_compare_cmp3, H in Hlt, Hgt.
  specialize (Hlt eq_refl). specialize (Hgt eq_refl).
  destruct c; simpl in *; congruence.
Qed.

Lemma relation_gives_cmp3 (key : key_fn) (op : cmp_op) (x y : value)
    (b : bool) :
  relation_gives key (py_compare op) x y b <->
  exists kx ky c, key x = Ok kx /\ key y = Ok ky /\
                  py_cmp3 kx ky = Some c /\ test_op op c = b.
Proof.
  unfold relation_gives. split.
  - intros [kx [ky [Hx [Hy H]]]]. rewrite py_compare_cmp3 in H.
    destruct (py_cmp3 kx ky) as [c|] eqn:E; [|discriminate].
    injection H as H. exists kx, ky, c. auto.
  - intros [kx [ky [c [Hx [Hy [E H]]]]]]. exists kx, ky.
    rewrite py_compare_cmp3, E, H. auto.
Qed.

Lemma is_sorted_ascending_true (imp : import_outcome) (lst : list value)
    (strict : bool) (key : option key_fn) :
  sentinel_clash imp lst = false ->
  (is_sorted_ascending imp lst strict key = Ok true <->
   forall i x y, adjacent lst i x y ->
     relation_gives (key_or_identity key)
       (py_compare (if strict then OpLt else OpLe)) x y true).
Proof.
  intros H. rewrite (is_sorted_ascending_scan _ _ strict key H).
  rewrite compare_ascending_op. apply scan_true.
Qed.

Lemma is_sorted_descending_true (imp : import_outcome) (lst : list value)
    (strict : bool) (key : option key_fn) :
  sentinel_clash imp lst = false ->
  (is_sorted_descending imp lst strict key = Ok true <->
   forall i x y, adjacent lst i x y ->
     relation_gives (key_or_identity key)
       (py_compare (if strict then OpGt else OpGe)) x y true).
Proof.
  intros H. rewrite (is_sorted_descending_scan _ _ strict key H).
  rewrite compare_descending_op. apply scan_true.
Qed.

(** X6.  With [itertools.pairwise] in use, or on a sequence that does
    not start with [None] followed by more items: a sequence passes both
    the ascending and the descending non-strict check if and only if
    the keys of every two adjacent items are equal ([==]) and can be
    ordered. *)
Theorem ascending_and_descending_means_constant (imp : import_outcome)
    (lst : list value) (key : option key_fn) :
  sentinel_clash imp lst = false ->
  (is_sorted_ascending imp lst false key = Ok true
   /\ is_sorted_descending imp lst false key = Ok true)
  <-> forall i x y, adjacent lst i x y ->
        exists kx ky,
          key_or_identity key x = Ok kx /\ key_or_identity key y = Ok ky /\
          py_eq kx ky = true /\ py_le kx ky = Ok true.
Proof.
  intros H.
  rewrite (is_sorted_ascending_true _ _ false key H).
  rewrite (is_sorted_descending_true _ _ false key H).
  split.
  - intros [Hasc Hdesc] i x y Hadj.
    specialize (Hasc i x y Hadj). specialize (Hdesc i x y Hadj).
    apply relation_gives_cmp3 in Hasc as [kx [ky [c [Hx [Hy [E Hc]]]]]].
    apply relation_gives_cmp3 in Hdesc
      as [kx' [ky' [c' [Hx' [Hy' [E' Hc']]]]]].
    assert (kx' = kx) by congruence. assert (ky' = ky) by congruence. subst.
    assert (c' = c) by congruence. subst.
    exists kx, ky. repeat split; try assumption.
    + apply py_cmp3_Eq. rewrite E. destruct c; simpl in *; congruence.
    + unfold py_le. rewrite py_compare_cmp3, E, Hc. reflexivity.
  - intros Hall. split; intros i x y Hadj;
      destruct (Hall i x y Hadj) as [kx [ky [Hx [Hy [Heq Hle]]]]];
      unfold py_le in Hle; rewrite py_compare_cmp3 in Hle;
      destruct (py_cmp3 kx ky) as [c|] eqn:E; try discriminate;
      pose proof (py_eq_cmp3 _ _ _ Heq E) as ->;
      apply relation_gives_cmp3; exists kx, ky, Eq; auto.
Qed.

Lemma ascending_and_descending_means_constant_witness :
  (is_sorted_ascending ImportError [VInt 5; VBool true] false None = Ok true
   /\ is_sorted_descending ImportError [VInt 5; VBool true] false None
      = Ok true)
  <-> forall i x y, adjacent [VInt 5; VBool true] i x y ->
        exists kx ky,
          key_or_identity None x = Ok kx /\ key_or_identity None y = Ok ky /\
          py_eq kx ky = true /\ py_le kx ky = Ok true.
Proof.
  apply (ascending_and_descending_means_constant ImportError
           [VInt 5; VBool true] None eq_refl).
Defined.

(** X7.  With [itertools.pairwise] in use, or on a sequence that does
    not start with [None] followed by more items: no sequence of two or
    more items passes a strict check in one direction and any check in
    the other. *)
Theorem strict_excludes_other_direction (imp : import_outcome)
    (lst : list value) (strict : bool) (key : option key_fn) :
  sentinel_clash imp lst = false ->
  (is_sorted_ascending imp lst true key = Ok true ->
   is_sorted_descending imp lst strict key = Ok true ->
   (List.length lst <= 1)%nat)
  /\ (is_sorted_descending imp lst true key = Ok true ->
      is_sorted_ascending imp lst strict key = Ok true ->
      (List.length lst <= 1)%nat).
Proof.
  intros H.
  rewrite (is_sorted_ascending_true _ _ true key H).
  rewrite (is_sorted_descending_true _ _ true key H).
  rewrite (is_sorted_ascending_true _ _ strict key H).
  rewrite (is_sorted_descending_true _ _ strict key H).
  split; intros Hone Hother;
    destruct lst as [|x [|y rest]]; simpl; try lia; exfalso;
    assert (Hadj : adjacent (x :: y :: rest) 0 x y) by (split; reflexivity);
    specialize (Hone _ _ _ Hadj); specialize (Hother _ _ _ Hadj);
    apply relation_gives_cmp3 in Hone as [kx [ky [c [Hx [Hy [E Hc]]]]]];
    apply relation_gives_cmp3 in Hother
      as [kx' [ky' [c' [Hx' [Hy' [E' Hc']]]]]];
    assert (kx' = kx) by congruence; assert (ky' = ky) by congruence; subst;
    assert (c' = c) by congruence; subst;
    destruct strict, c; simpl in *; congruence.
Qed.

Lemma strict_excludes_other_direction_witness :
  (List.length [VInt 4] <= 1)%nat.
Proof.
  apply (proj1 (strict_excludes_other_direction Imported [VInt 4] false None
                  eq_refl)); reflexivity.
Defined.

(** X8.  With [itertools.pairwise] in use, or on a sequence that does
    not start with [None] followed by more items: the strict check
    passes if and only if the non-strict check passes and no two
    adjacent items have equal ([==]) keys. *)
Theorem strict_is_non_strict_without_duplicates (imp : import_outcome)
    (lst : list value) (key : option key_fn) :
  sentinel_clash imp lst = false ->
  let distinct :=
    forall i x y kx ky, adjacent lst i x y ->
      key_or_identity key x = Ok kx -> key_or_identity key y = Ok ky ->
      py_eq kx ky = false in
  (is_sorted_ascending imp lst true key = Ok true
   <-> is_sorted_ascending imp lst false key = Ok true /\ distinct)
  /\ (is_sorted_descending imp lst true key = Ok true
      <-> is_sorted_descending imp lst false key = Ok true /\ distinct).
Proof.
  intros H distinct. unfold distinct.
  rewrite (is_sorted_ascending_true _ _ true key H).
  rewrite (is_sorted_descending_true _ _ true key H).
  rewrite (is_sorted_ascending_true _ _ false key H).
  rewrite (is_sorted_descending_true _ _ false key H).
  split; split.
  1, 3: intros Hs; split;
    [ intros i x y Hadj; specialize (Hs i x y Hadj);
      apply relation_gives_cmp3 in Hs as [kx [ky [c [Hx [Hy [E Hc]]]]]];
      apply relation_gives_cmp3; exists kx, ky, c;
      repeat split; try assumption; destruct c; simpl in *; congruence
    | intros i x y kx ky Hadj Hx Hy; specialize (Hs i x y Hadj);
      apply relation_gives_cmp3 in Hs as [kx' [ky' [c [Hx' [Hy' [E Hc]]]]]];
      assert (kx' = kx) by congruence; assert (ky' = ky) by congruence; subst;
      destruct (py_eq kx ky) eqn:Heq; [|reflexivity];
      pose proof (py_eq_cmp3 _ _ _ Heq E) as ->; simpl in Hc; discriminate ].
  all: intros [Hw Hd] i x y Hadj; specialize (Hw i x y Hadj);
    apply relation_gives_cmp3 in Hw as [kx [ky [c [Hx [Hy [E Hc]]]]]];
    apply relation_gives_cmp3; exists kx, ky, c;
    repeat split; try assumption;
    specialize (Hd i x y kx ky Hadj Hx Hy);
    destruct c; simpl in *; try congruence;
    rewrite (py_cmp3_Eq _ _ E) in Hd; discriminate.
Qed.

Lemma strict_is_non_strict_without_duplicates_witness :
  is_sorted_ascending ImportError [VInt 1; VInt 2] true None = Ok true
  <-> is_sorted_ascending ImportError [VInt 1; VInt 2] false None = Ok true
      /\ (forall i x y kx ky, adjacent [VInt 1; VInt 2] i x y ->
            key_or_identity None x = Ok kx ->
            key_or_identity None y = Ok ky -> py_eq kx ky = false).
Proof.
  apply (proj1 (strict_is_non_strict_without_duplicates ImportError
                  [VInt 1; VInt 2] None eq_refl)).
Defined.

(* ------------------------------------------------------------------ *)
(** ** Sequences of integers and of strings *)

Section Homogeneous.
Variable T : Type.
Variable inj : T -> value.
Variable cmp : T -> T -> comparison.
Hypothesis inj_cmp3 : forall a b, py_cmp3 (inj a) (inj b) = Some (cmp a b).
Hypothesis inj_not_None : forall a, is_None (inj a) = false.

Lemma homogeneous_no_clash (imp : import_outcome) (l : list T) :
  sentinel_clash imp (map inj l) = false.
Proof.
  destruct imp; [reflexivity|]. destruct l as [|a l]; [reflexivity|].
  simpl. pose proof (inj_not_None a) as H.
  destruct (inj a); try reflexivity; discriminate.
Qed.

Lemma homogeneous_scan_true (op : cmp_op) (l : list T) :
  scan (py_compare op) (key_or_identity None) (map inj l) = Ok true
  <-> Sorted (fun a b => test_op op (cmp a b) = true) l.
Proof.
  unfold scan. induction l as [|a [|b l] IH].
  - split; [constructor | reflexivity].
  - split; [repeat constructor | reflexivity].
  - cbn [map] in *. rewrite itertools_pairwise_cons2. cbn [map].
    change (?c :: ?g) with ([] ++ c :: g) at 1.
    rewrite py_all_app_item, IH. simpl keyed_compare.
    rewrite py_compare_cmp3, inj_cmp3. split.
    + intros [_ [[= H] Hs]]. constructor; [exact Hs|]. constructor. exact H.
    + intros H. inversion H as [|? ? Hs Hhd]; subst.
      inversion Hhd; subst.
      split; [reflexivity|]. split; [f_equal; assumption | exact Hs].
Qed.

Lemma homogeneous_scan_total (op : cmp_op) (l : list T) :
  exists b,
    scan (py_compare op) (key_or_identity None) (map inj l) = Ok b.
Proof.
  apply scan_total. intros i x y [Hx Hy].
  apply nth_error_In, in_map_iff in Hx as [a [<- _]].
  apply nth_error_In, in_map_iff in Hy as [b [<- _]].
  exists (test_op op (cmp a b)), (inj a), (inj b). repeat split.
  rewrite py_compare_cmp3, inj_cmp3. reflexivity.
Qed.
End Homogeneous.

Lemma Sorted_ext (A : Type) (R R' : A -> A -> Prop) (l : list A) :
  (forall a b, R a b <-> R' a b) -> Sorted R l <-> Sorted R' l.
Proof.
  intros H. induction l as [|a l IH].
  - split; constructor.
  - split; intros Hs; inversion Hs as [|? ? Hl Hhd]; subst;
      (constructor; [apply IH; exact Hl|]);
      destruct Hhd; constructor; apply H; assumption.
Qed.

Lemma Sorted_iff_StronglySorted (A : Type) (R : A -> A -> Prop)
    (l : list A) :
  Transitive R -> Sorted R l <-> StronglySorted R l.
Proof.
  intros HR. split;
    [apply Sorted_StronglySorted; exact HR | apply StronglySorted_Sorted].
Qed.

(** The relation on integers that an operator tests. *)
Lemma test_op_Z (op : cmp_op) (a b : Z) :
  test_op op (Z.compare a b) = true
  <-> match op with
      | OpLt => (a < b)%Z
      | OpLe => (a <= b)%Z
      | OpGt => (a > b)%Z
      | OpGe => (a >= b)%Z
      end.
Proof.
  destruct op; unfold Z.lt, Z.le, Z.gt, Z.ge;
    destruct (Z.compare a b); simpl; split; congruence.
Qed.

Lemma ints_scan_true (op : cmp_op) (zs : list Z) :
  scan (py_compare op) (key_or_identity None) (map VInt zs) = Ok true
  <-> StronglySorted
        (match op with
         | OpLt => Z.lt
         | OpLe => Z.le
         | OpGt => Z.gt
         | OpGe => Z.ge
         end) zs.
Proof.
  rewrite (homogeneous_scan_true Z VInt Z.compare (fun a b => eq_refl)).
  rewrite (Sorted_ext _ _
             (match op with
              | OpLt => Z.lt | OpLe => Z.le | OpGt => Z.gt | OpGe => Z.ge
              end) zs).
  - apply Sorted_iff_StronglySorted. destruct op; intros a b c; lia.
  - intros a b. rewrite test_op_Z. destruct op; reflexivity.
Qed.

(** X9.  On a sequence of integers, called without a key, the two
    checkers never raise, under either [pairwise]; [is_sorted_ascending]
    returns true exactly when every item is [<=] ([<] when strict)
    every later item, and [is_sorted_descending] exactly when every
    item is [>=] ([>] when strict) every later item. *)
Theorem on_integers_decides_sortedness (imp : import_outcome)
    (zs : list Z) (strict : bool) :
  (exists b, is_sorted_ascending imp (map VInt zs) strict None = Ok b)
  /\ (exists b, is_sorted_descending imp (map VInt zs) strict None = Ok b)
  /\ (is_sorted_ascending imp (map VInt zs) strict None = Ok true
      <-> StronglySorted (if strict then Z.lt else Z.le) zs)
  /\ (is_sorted_descending imp (map VInt zs) strict None = Ok true
      <-> StronglySorted (if strict then Z.gt else Z.ge) zs).
Proof.
  assert (Hclash : sentinel_clash imp (map VInt zs) = false)
    by (apply homogeneous_no_clash; reflexivity).
  rewrite !(is_sorted_ascending_scan _ _ strict None Hclash).
  rewrite !(is_sorted_descending_scan _ _ strict None Hclash).
  rewrite compare_ascending_op, compare_descending_op.
  split; [|split; [|split]].
  - apply (homogeneous_scan_total Z VInt Z.compare (fun a b => eq_refl)).
  - apply (homogeneous_scan_total Z VInt Z.compare (fun a b => eq_refl)).
  - rewrite ints_scan_true. destruct strict; reflexivity.
  - rewrite ints_scan_true. destruct strict; reflexivity.
Qed.

Lemma StronglySorted_NoDup (R : Z -> Z -> Prop) (zs : list Z) :
  (forall a, ~ R a a) -> StronglySorted R zs -> NoDup zs.
Proof.
  intros Hirr. induction 1 as [|a l Hs IH Hall]; constructor; [|exact IH].
  intros Hin. rewrite Forall_forall in Hall. apply (Hirr a), Hall, Hin.
Qed.

(** X10.  A sequence of integers that passes a strict check, ascending
    or descending, holds no integer twice, adjacent or not. *)
Theorem strict_on_integers_has_no_duplicates (imp : import_outcome)
    (zs : list Z) :
  is_sorted_ascending imp (map VInt zs) true None = Ok true
  \/ is_sorted_descending imp (map VInt zs) true None = Ok true ->
  NoDup zs.
Proof.
  assert (Hclash : sentinel_clash imp (map VInt zs) = false)
    by (apply homogeneous_no_clash; reflexivity).
  rewrite (is_sorted_ascending_scan _ _ true None Hclash).
  rewrite (is_sorted_descending_scan _ _ true None Hclash).
  intros [H | H].
  - apply (ints_scan_true OpLt) in H.
    apply (StronglySorted_NoDup Z.lt); [intros a; lia | exact H].
  - apply (ints_scan_true OpGt) in H.
    apply (StronglySorted_NoDup Z.gt); [intros a; lia | exact H].
Qed.

Lemma strict_on_integers_has_no_duplicates_witness :
  NoDup [10; 8; 5; 2]%Z.
Proof.
  apply (strict_on_integers_has_no_duplicates ImportError [10; 8; 5; 2]%Z).
  right. reflexivity.
Defined.

(* ------------------------------------------------------------------ *)
(** ** The order on built-in values is transitive *)

Lemma seq_eq_trans (xs : list value) :
  Forall (fun a => forall b c, py_eq a b = true -> py_eq b c = py_eq a c) xs ->
  forall ys zs,
    seq_eq py_eq xs ys = true -> seq_eq py_eq ys zs = seq_eq py_eq xs zs.
Proof.
  induction 1 as [|a xs Ha _ IH]; intros [|b ys] zs; simpl;
    try discriminate; try reflexivity.
  intros E. apply andb_true_iff in E as [Eab E].
  destruct zs as [|c zs]; [reflexivity|].
  rewrite (Ha b c Eab), (IH ys zs E). reflexivity.
Qed.

(** Every binding of [d] has a binding of [e] with the same key and an
    equal value. *)
Lemma dict_included (d e : list (string * value)) :
  forallb (fun kv =>
    existsb (fun kv' =>
      String.eqb (fst kv) (fst kv') && py_eq (snd kv) (snd kv')) e) d = true
  <-> forall kv, In kv d ->
        exists kv', In kv' e /\ fst kv = fst kv' /\
                    py_eq (snd kv) (snd kv') = true.
Proof.
  rewrite forallb_forall. split; intros H kv Hkv.
  - apply H, existsb_exists in Hkv as [kv' [Hin E]].
    apply andb_true_iff in E as [Ek Ev]. apply String.eqb_eq in Ek. eauto.
  - apply existsb_exists. destruct (H kv Hkv) as [kv' [Hin [Ek Ev]]].
    exists kv'. split; [exact Hin|].
    apply andb_true_iff. split; [apply String.eqb_eq, Ek | exact Ev].
Qed.

(** Every binding of [e] has a binding of [d] with the same key and an
    equal value, the value of [d] standing on the left of [==]. *)
Lemma dict_includes (d e : list (string * value)) :
  forallb (fun kv' =>
    existsb (fun kv =>
      String.eqb (fst kv) (fst kv') && py_eq (snd kv) (snd kv')) d) e = true
  <-> forall kv', In kv' e ->
        exists kv, In kv d /\ fst kv = fst kv' /\
                   py_eq (snd kv) (snd kv') = true.
Proof.
  rewrite forallb_forall. split; intros H kv' Hkv'.
  - apply H, existsb_exists in Hkv' as [kv [Hin E]].
    apply andb_true_iff in E as [Ek Ev]. apply String.eqb_eq in Ek. eauto.
  - apply existsb_exists. destruct (H kv' Hkv') as [kv [Hin [Ek Ev]]].
    exists kv. split; [exact Hin|].
    apply andb_true_iff. split; [apply String.eqb_eq, Ek | exact Ev].
Qed.

Lemma dict_eq_trans (d : list (string * value)) :
  Forall (fun kv => forall b c,
            py_eq (snd kv) b = true -> py_eq b c = py_eq (snd kv) c) d ->
  forall e f,
    dict_eq py_eq d e = true -> dict_eq py_eq e f = dict_eq py_eq d f.
Proof.
  intros IH e f Hde. rewrite Forall_forall in IH.
  unfold dict_eq in Hde. apply andb_true_iff in Hde as [Hinc Hincs].
  rewrite dict_included in Hinc. rewrite dict_includes in Hincs.
  unfold dict_eq. f_equal; apply eq_true_iff_eq.
  - rewrite !dict_included. split; intros H.
    + intros kv Hkv. destruct (Hinc kv Hkv) as [kv' [Hin' [Ek Ev]]].
      destruct (H kv' Hin') as [kv'' [Hin'' [Ek' Ev']]].
      exists kv''. split; [exact Hin''|]. split; [congruence|].
      rewrite <- (IH kv Hkv _ _ Ev). exact Ev'.
    + intros kv' Hkv'. destruct (Hincs kv' Hkv') as [kv [Hin [Ek Ev]]].
      destruct (H kv Hin) as [kv'' [Hin'' [Ek' Ev']]].
      exists kv''. split; [exact Hin''|]. split; [congruence|].
      rewrite (IH kv Hin _ _ Ev). exact Ev'.
  - rewrite !dict_includes. split; intros H kv'' Hkv''.
    + destruct (H kv'' Hkv'') as [kv' [Hin' [Ek Ev]]].
      destruct (Hincs kv' Hin') as [kv [Hin [Ek' Ev']]].
      exists kv. split; [exact Hin|]. split; [congruence|].
      rewrite <- (IH kv Hin _ _ Ev'). exact Ev.
    + destruct (H kv'' Hkv'') as [kv [Hin [Ek Ev]]].
      destruct (Hinc kv Hin) as [kv' [Hin' [Ek' Ev']]].
      exists kv'. split; [exact Hin'|]. split; [congruence|].
      rewrite (IH kv Hin _ _ Ev'). exact Ev.
Qed.

(** Values equal to a same value are equal to the same values. *)
Lemma py_eq_trans (x y z : value) :
  py_eq x y = true -> py_eq y z = py_eq x z.
Proof.
  revert y z. induction x using value_ind; intros [] z; simpl;
    try discriminate; intros E;
    try (apply Z.eqb_eq in E; destruct z; simpl; rewrite ?E; reflexivity).
  - reflexivity.
  - apply String.eqb_eq in E. subst. reflexivity.
  - destruct z; try reflexivity. simpl. apply seq_eq_trans; assumption.
  - destruct z; try reflexivity. simpl. apply seq_eq_trans; assumption.
  - destruct z; try reflexivity. simpl. apply dict_eq_trans; assumption.
Qed.

Lemma seq_cmp3_eq_l (xs : list value) :
  Forall (fun a => forall a' b,
            py_eq a a' = true -> py_cmp3 a b = py_cmp3 a' b) xs ->
  forall xs' ys,
    seq_eq py_eq xs xs' = true ->
    seq_cmp3 py_cmp3 xs ys = seq_cmp3 py_cmp3 xs' ys.
Proof.
  induction 1 as [|a xs Ha _ IH]; intros [|a' xs'] ys; simpl;
    try discriminate; try reflexivity.
  intros E. apply andb_true_iff in E as [Eaa E].
  destruct ys as [|b ys].
  - reflexivity.
  - rewrite (py_eq_trans a a' b Eaa).
    destruct (py_eq a b); [apply IH, E | apply Ha, Eaa].
Qed.

(** Equal values stand alike to any third value. *)
Lemma py_cmp3_eq_l (x x' y : value) :
  py_eq x x' = true -> py_cmp3 x y = py_cmp3 x' y.
Proof.
  revert x' y. induction x using value_ind; intros [] y; simpl;
    try discriminate; intros E;
    try (apply Z.eqb_eq in E; destruct y; simpl; rewrite ?E; reflexivity).
  - reflexivity.
  - apply String.eqb_eq in E. subst. reflexivity.
  - destruct y; try reflexivity. simpl. apply seq_cmp3_eq_l; assumption.
  - destruct y; try reflexivity. simpl. apply seq_cmp3_eq_l; assumption.
  - destruct y; reflexivity.
Qed.

(** The comparison seen from the other side. *)
Lemma py_cmp3_antisym (x y : value) :
  py_cmp3 y x = option_map CompOpp (py_cmp3 x y).
Proof.
  pose proof (py_compare_swap OpLt x y) as Hlt.
  pose proof (py_compare_swap OpGt x y) as Hgt.
  rewrite !py_compare_cmp3 in Hlt, Hgt.
  destruct (py_cmp3 x y) as [c|], (py_cmp3 y x) as [c'|]; simpl in *;
    try discriminate; try reflexivity.
  destruct c, c'; simpl in *; congruence.
Qed.

Lemma py_cmp3_eq_r (x y y' : value) :
  py_eq y y' = true -> py_cmp3 x y = py_cmp3 x y'.
Proof.
  intros E. rewrite (py_cmp3_antisym y x), (py_cmp3_antisym y' x).
  rewrite (py_cmp3_eq_l y y' x E). reflexivity.
Qed.

Lemma seq_cmp3_trans (xs : list value) :
  Forall (fun a => forall b c c1 c2,
            py_cmp3 a b = Some c1 -> py_cmp3 b c = Some c2 ->
            c1 <> Gt -> c2 <> Gt ->
            py_cmp3 a c = Some (lex_comparison c1 c2)) xs ->
  forall ys zs c1 c2,
    seq_cmp3 py_cmp3 xs ys = Some c1 -> seq_cmp3 py_cmp3 ys zs = Some c2 ->
    c1 <> Gt -> c2 <> Gt ->
    seq_cmp3 py_cmp3 xs zs = Some (lex_comparison c1 c2).
Proof.
  induction 1 as [|a xs Ha _ IH]; intros [|b ys] [|c zs] c1 c2; simpl;
    intros H1 H2 N1 N2;
    try (injection H1 as <-); try (injection H2 as <-);
    try congruence; try reflexivity.
  destruct (py_eq a b) eqn:Eab, (py_eq b c) eqn:Ebc.
  - rewrite <- (py_eq_trans a b c Eab), Ebc. apply (IH ys zs); assumption.
  - rewrite <- (py_eq_trans a b c Eab), Ebc.
    rewrite (py_cmp3_eq_l a b c Eab), H2.
    assert (c2 = Lt) as ->.
    { destruct c2; try congruence.
      rewrite (py_cmp3_Eq _ _ H2) in Ebc. discriminate. }
    destruct c1; simpl; congruence.
  - assert (Eac : py_eq a c = false).
    { rewrite (py_eq_sym a c), <- (py_eq_trans c b a), (py_eq_sym b a).
      - exact Eab.
      - rewrite py_eq_sym. exact Ebc. }
    rewrite Eac, <- (py_cmp3_eq_r a b c Ebc), H1.
    assert (c1 = Lt) as ->.
    { destruct c1; try congruence.
      rewrite (py_cmp3_Eq _ _ H1) in Eab. discriminate. }
    reflexivity.
  - assert (c1 = Lt) as ->.
    { destruct c1; try congruence.
      rewrite (py_cmp3_Eq _ _ H1) in Eab. discriminate. }
    assert (c2 = Lt) as ->.
    { destruct c2; try congruence.
      rewrite (py_cmp3_Eq _ _ H2) in Ebc. discriminate. }
    pose proof (Ha b c Lt Lt H1 H2 N1 N2) as Hac. simpl in Hac.
    destruct (py_eq a c) eqn:Eac; [|exact Hac].
    pose proof (py_eq_cmp3 _ _ _ Eac Hac). discriminate.
Qed.

Lemma Z_compare_trans (a b c : Z) (c1 c2 : comparison) :
  Z.compare a b = c1 -> Z.compare b c = c2 -> c1 <> Gt -> c2 <> Gt ->
  Z.compare a c = lex_comparison c1 c2.
Proof.
  intros <- <- N1 N2.
  destruct (Z.compare_spec a b), (Z.compare_spec b c); try congruence;
    subst; simpl.
  - apply Z.compare_refl.
  - apply Z.compare_lt_iff. assumption.
  - apply Z.compare_lt_iff. assumption.
  - apply Z.compare_lt_iff. lia.
Qed.

Lemma string_compare_trans (s t u : string) (c1 c2 : comparison) :
  String.compare s t = c1 -> String.compare t u = c2 ->
  c1 <> Gt -> c2 <> Gt ->
  String.compare s u = lex_comparison c1 c2.
Proof.
  intros <- <- N1 N2.
  destruct (String.compare s t) eqn:E1; try congruence; simpl.
  - apply String.compare_eq_iff in E1. subst. reflexivity.
  - destruct (String.compare t u) eqn:E2; try congruence.
    + apply String.compare_eq_iff in E2. subst. exact E1.
    + apply String_as_OT.cmp_lt.
      apply (String_as_OT.lt_trans s t u); apply String_as_OT.cmp_lt;
        assumption.
Qed.

(** The order is transitive: from [x] not above [y] and [y] not above
    [z], [x] is not above [z], and it is below as soon as one step
    is. *)
Lemma py_cmp3_trans (x y z : value) (c1 c2 : comparison) :
  py_cmp3 x y = Some c1 -> py_cmp3 y z = Some c2 ->
  c1 <> Gt -> c2 <> Gt ->
  py_cmp3 x z = Some (lex_comparison c1 c2).
Proof.
  revert y z c1 c2.
  induction x using value_ind; intros [] [] c1 c2; simpl;
    try discriminate;
    try (intros [= H1] [= H2] N1 N2; f_equal;
         apply (Z_compare_trans _ _ _ _ _ H1 H2 N1 N2)).
  - intros [= H1] [= H2] N1 N2. f_equal.
    apply (string_compare_trans _ _ _ _ _ H1 H2 N1 N2).
  - apply seq_cmp3_trans; assumption.
  - apply seq_cmp3_trans; assumption.
Qed.

(** Each of the four operators is transitive where it answers true. *)
Lemma py_compare_trans (op : cmp_op) (x y z : value) :
  py_compare op x y = Ok true -> py_compare op y z = Ok true ->
  py_compare op x z = Ok true.
Proof.
  assert (Hup : forall op', (op' = OpLt \/ op' = OpLe) -> forall a b c,
            py_compare op' a b = Ok true -> py_compare op' b c = Ok true ->
            py_compare op' a c = Ok true).
  { intros op' Hop a b c. rewrite !py_compare_cmp3.
    destruct (py_cmp3 a b) as [c1|] eqn:E1; [|discriminate].
    destruct (py_cmp3 b c) as [c2|] eqn:E2; [|discriminate].
    intros [= H1] [= H2].
    rewrite (py_cmp3_trans a b c c1 c2 E1 E2).
    - f_equal. destruct Hop; subst; destruct c1, c2; simpl in *; congruence.
    - destruct Hop; subst; destruct c1; simpl in *; congruence.
    - destruct Hop; subst; destruct c2; simpl in *; congruence. }
  destruct op.
  - apply Hup. auto.
  - apply Hup. auto.
  - rewrite (py_compare_swap OpGt x y), (py_compare_swap OpGt y z),
      (py_compare_swap OpGt x z). simpl. intros H1 H2.
    apply (Hup OpLt (or_introl eq_refl) z y x); assumption.
  - rewrite (py_compare_swap OpGe x y), (py_compare_swap OpGe y z),
      (py_compare_swap OpGe x z). simpl. intros H1 H2.
    apply (Hup OpLe (or_intror eq_refl) z y x); assumption.
Qed.

Lemma relation_gives_trans (key : key_fn) (op : cmp_op) (x y z : value) :
  relation_gives key (py_compare op) x y true ->
  relation_gives key (py_compare op) y z true ->
  relation_gives key (py_compare op) x z true.
Proof.
  intros [kx [ky [Hx [Hy H1]]]] [ky' [kz [Hy' [Hz H2]]]].
  assert (ky' = ky) by congruence. subst.
  exists kx, kz. repeat split; try assumption.
  apply (py_compare_trans op kx ky kz); assumption.
Qed.

Lemma scan_true_all_pairs (op : cmp_op) (key : key_fn) (lst : list value) :
  scan (py_compare op) key lst = Ok true ->
  forall d i x y,
    nth_error lst i = Some x -> nth_error lst (i + S d) = Some y ->
    relation_gives key (py_compare op) x y true.
Proof.
  intros Hscan. rewrite scan_true in Hscan.
  induction d as [|d IH]; intros i x y Hx Hy.
  - apply (Hscan i). split; [exact Hx|].
    replace (S i) with (i + 1)%nat by lia. exact Hy.
  - destruct (nth_error lst (i + S d)) as [m|] eqn:Hm.
    + apply (relation_gives_trans key op x m y).
      * apply (IH i); assumption.
      * apply (Hscan (i + S d)%nat). split; [exact Hm|].
        replace (S (i + S d)) with (i + S (S d))%nat by lia. exact Hy.
    + apply nth_error_None in Hm.
      assert (Hlt : (i + S (S d) < List.length lst)%nat)
        by (apply nth_error_Some; congruence).
      lia.
Qed.

(** X11.  With [itertools.pairwise] in use, or on a sequence that does
    not start with [None] followed by more items: when a check returns
    true the whole sequence is in order, not only its adjacent items.
    The key of every item is [<=] ([<] when strict) the key of every
    later item after [is_sorted_ascending], and [>=] ([>] when strict)
    after [is_sorted_descending]. *)
Theorem passing_check_orders_all_pairs (imp : import_outcome)
    (lst : list value) (strict : bool) (key : option key_fn) :
  sentinel_clash imp lst = false ->
  (is_sorted_ascending imp lst strict key = Ok true ->
   forall i j x y, (i < j)%nat ->
     nth_error lst i = Some x -> nth_error lst j = Some y ->
     relation_gives (key_or_identity key)
       (fun a b => if strict then py_lt a b else py_le a b) x y true)
  /\ (is_sorted_descending imp lst strict key = Ok true ->
      forall i j x y, (i < j)%nat ->
        nth_error lst i = Some x -> nth_error lst j = Some y ->
        relation_gives (key_or_identity key)
          (fun a b => if strict then py_gt a b else py_ge a b) x y true).
Proof.
  intros H.
  rewrite (is_sorted_ascending_scan _ _ strict key H).
  rewrite (is_sorted_descending_scan _ _ strict key H).
  rewrite compare_ascending_op, compare_descending_op.
  split; intros Hscan i j x y Hij Hx Hy;
    replace j with (i + S (j - i - 1))%nat in Hy by lia.
  - pose proof (scan_true_all_pairs _ _ _ Hscan _ _ _ _ Hx Hy) as Hr.
    destruct strict; exact Hr.
  - pose proof (scan_true_all_pairs _ _ _ Hscan _ _ _ _ Hx Hy) as Hr.
    destruct strict; exact Hr.
Qed.

Lemma passing_check_orders_all_pairs_witness :
  relation_gives (key_or_identity None)
    (fun a b => if true then py_lt a b else py_le a b)
    (VStr "ab") (VStr "b") true.
Proof.
  apply (proj1 (passing_check_orders_all_pairs ImportError
                  [VStr "ab"; VStr "abc"; VStr "b"] true None eq_refl)
           eq_refl 0%nat 2%nat (VStr "ab") (VStr "b"));
    [lia | reflexivity | reflexivity].
Defined.

(* ------------------------------------------------------------------ *)
(** ** How often the key is called *)

Lemma logging_key_run (log : loc) (f : key_fn) (x : value) (st : store) :
  logging_key log f x st
  = Some (f x, fun l => if Nat.eqb l log then st log ++ [x] else st l).
Proof. reflexivity. Qed.

Lemma scan_from_logging (compare : value -> value -> result bool)
    (f : key_fn) (lst log : loc) :
  lst <> log ->
  forall rest pre a fuel st,
    st lst = pre ++ rest ->
    (List.length rest < fuel)%nat ->
    py_all (map (keyed_compare compare f) (_pairwise_loop a rest)) = Ok true ->
    exists st',
      scan_from fuel compare (logging_key log f) a
        {| it_seq := lst; it_index := List.length pre |} st
      = Some (Ok true, st')
      /\ st' lst = st lst
      /\ st' log
         = st log ++ flat_map (fun p => [fst p; snd p]) (_pairwise_loop a rest).
Proof.
  intros Hneq. apply Nat.eqb_neq in Hneq.
  induction rest as [|b rest IH]; intros pre a fuel st Hst Hfuel Hall;
    (destruct fuel as [|fuel]; [simpl in Hfuel; lia|]).
  - exists st. simpl. unfold bindM, next. simpl. rewrite Hst.
    rewrite nth_error_app2, Nat.sub_diag by lia. simpl.
    rewrite !app_nil_r. repeat split; reflexivity.
  - simpl in Hall. unfold bind in Hall.
    destruct (f a) as [ka|] eqn:Ea; [|discriminate].
    destruct (f b) as [kb|] eqn:Eb; [|discriminate].
    destruct (compare ka kb) as [[|]|] eqn:Ec; try discriminate.
    set (st1 := fun l => if Nat.eqb l log then st log ++ [a] else st l).
    set (st2 := fun l => if Nat.eqb l log then st1 log ++ [b] else st1 l).
    assert (Hst2 : st2 lst = (pre ++ [b]) ++ rest).
    { unfold st2, st1. rewrite Hneq, <- app_assoc. exact Hst. }
    destruct (IH (pre ++ [b]) b fuel st2 Hst2) as [st' [Hrun [Hlst Hlog]]].
    + simpl in Hfuel. lia.
    + exact Hall.
    + exists st'. split; [|split].
      * simpl. unfold bindM at 1. unfold next. simpl. rewrite Hst.
        rewrite nth_error_app2, Nat.sub_diag by lia. simpl.
        unfold bindM at 1. rewrite logging_key_run, Ea. fold st1.
        unfold bindM at 1. rewrite logging_key_run, Eb. fold st2.
        unfold bindM at 1. unfold lift. rewrite Ec.
        rewrite length_app in Hrun. simpl in Hrun.
        replace (List.length pre + 1)%nat with (S (List.length pre)) in Hrun
          by lia.
        exact Hrun.
      * rewrite Hlst. unfold st2, st1. rewrite Hneq. reflexivity.
      * rewrite Hlog. unfold st2, st1. rewrite Nat.eqb_refl. simpl.
        rewrite <- !app_assoc. reflexivity.
Qed.

Lemma scan_in_store_logging (imp : import_outcome)
    (compare : value -> value -> result bool) (f : key_fn)
    (lst log : loc) (st : store) (fuel : nat) :
  lst <> log ->
  (List.length (st lst) <= fuel)%nat ->
  py_all (map (keyed_compare compare f) (pairwise imp (st lst))) = Ok true ->
  exists st',
    scan_in_store imp fuel compare (logging_key log f) lst st
    = Some (Ok true, st')
    /\ st' lst = st lst
    /\ st' log
       = st log ++ flat_map (fun p => [fst p; snd p]) (pairwise imp (st lst)).
Proof.
  intros Hneq Hfuel Hall.
  destruct (st lst) as [|a rest] eqn:Hst.
  - exists st.
    destruct imp; unfold scan_in_store, next_or, bindM, next, iter; simpl;
      rewrite Hst; simpl; rewrite !app_nil_r; repeat split; reflexivity.
  - assert (Hstop : sentinel_clash imp (a :: rest) = false ->
                    pairwise imp (a :: rest) = _pairwise_loop a rest).
    { intros H. rewrite (pairwise_no_clash _ _ H).
      symmetry. apply _pairwise_loop_itertools. }
    assert (Hloop : pairwise imp (a :: rest) = _pairwise_loop a rest ->
            exists st',
              scan_from fuel compare (logging_key log f) a
                {| it_seq := lst; it_index := 1 |} st = Some (Ok true, st')
              /\ st' lst = a :: rest
              /\ st' log
                 = st log ++ flat_map (fun p => [fst p; snd p])
                                      (pairwise imp (a :: rest))).
    { intros E. rewrite E in *.
      destruct (scan_from_logging compare f lst log Hneq rest [a] a fuel st
                  Hst ltac:(simpl in Hfuel; lia) Hall)
        as [st' [Hrun [Hlst Hlog]]].
      exists st'. rewrite <- Hst. auto. }
    destruct imp.
    + unfold scan_in_store, bindM at 1, next, iter. simpl. rewrite Hst. simpl.
      apply Hloop, Hstop. reflexivity.
    + unfold scan_in_store, next_or, bindM at 1 2, next, iter. simpl.
      rewrite Hst. simpl. destruct (is_None a) eqn:Ea.
      * exists st. destruct a; try discriminate. simpl.
        rewrite Hst, app_nil_r. repeat split; reflexivity.
      * apply Hloop, Hstop. destruct a; try discriminate; reflexivity.
Qed.

(** X12.  When a check passes with a key function, the key has been
    called once on each item of each pair that [pairwise] yields, left
    item first: on a sequence of [n] items scanned in full that is
    [2(n-1)] calls, every inner item being projected twice.  The items
    the key was called on are read from a log that the key appends to;
    the checked list itself is left as it was. *)
Theorem key_called_on_both_items_of_each_pair (imp : import_outcome)
    (st : store) (lst log : loc) (strict : bool) (f : key_fn) (fuel : nat) :
  lst <> log ->
  (List.length (st lst) <= fuel)%nat ->
  let calls := flat_map (fun p => [fst p; snd p]) (pairwise imp (st lst)) in
  (is_sorted_ascending imp (st lst) strict (Some f) = Ok true ->
   exists st',
     is_sorted_ascending_in_store imp fuel lst strict
       (Some (logging_key log f)) st = Some (Ok true, st')
     /\ st' lst = st lst /\ st' log = st log ++ calls)
  /\ (is_sorted_descending imp (st lst) strict (Some f) = Ok true ->
      exists st',
        is_sorted_descending_in_store imp fuel lst strict
          (Some (logging_key log f)) st = Some (Ok true, st')
        /\ st' lst = st lst /\ st' log = st log ++ calls).
Proof.
  intros Hneq Hfuel calls. split; intros Hall;
    apply scan_in_store_logging; assumption.
Qed.

Lemma key_called_on_both_items_of_each_pair_witness :
  let st : store := fun l => if Nat.eqb l 0 then [VInt 1; VInt 2; VInt 3]
                             else [] in
  exists st',
    is_sorted_ascending_in_store Imported 3 0 false
      (Some (logging_key 1 (fun x => Ok x))) st = Some (Ok true, st')
    /\ st' 0%nat = [VInt 1; VInt 2; VInt 3]
    /\ st' 1%nat = [] ++ [VInt 1; VInt 2; VInt 2; VInt 3].
Proof.
  intros st.
  apply (proj1 (key_called_on_both_items_of_each_pair Imported st 0%nat 1%nat
                  false (fun x => Ok x) 3
                  ltac:(discriminate) (le_n 3))).
  reflexivity.
Defined.

(* ------------------------------------------------------------------ *)
(** ** The demo *)

Lemma demo_round_returns (imp : import_outcome) (lst : list Z) :
  exists line, demo_round imp lst = Ok line.
Proof.
  assert (Hclash : sentinel_clash imp (map VInt lst) = false)
    by (apply homogeneous_no_clash; reflexivity).
  unfold demo_round.
  rewrite !(is_sorted_ascending_scan _ _ _ None Hclash).
  rewrite !(is_sorted_descending_scan _ _ _ None Hclash).
  rewrite !compare_ascending_op, !compare_descending_op.
  destruct (homogeneous_scan_total Z VInt Z.compare (fun a b => eq_refl)
              OpLe lst) as [b1 ->].
  destruct (homogeneous_scan_total Z VInt Z.compare (fun a b => eq_refl)
              OpLt lst) as [b2 ->].
  destruct (homogeneous_scan_total Z VInt Z.compare (fun a b => eq_refl)
              OpGe lst) as [b3 ->].
  simpl. eauto.
Qed.

Lemma demo_loop_prints_every_list (imp : import_outcome)
    (lists : list (list Z)) :
  forall printed,
    exists lines,
      demo_loop imp lists printed = (printed ++ lines, None)
      /\ List.length lines = List.length lists.
Proof.
  induction lists as [|lst lists IH]; intros printed.
  - exists []. rewrite app_nil_r. auto.
  - simpl. destruct (demo_round_returns imp lst) as [line ->].
    destruct (IH (printed ++ [line])) as [lines [-> Hlen]].
    exists (line :: lines). rewrite <- app_assoc. simpl. auto.
Qed.

(** X13.  Run as a program, with [itertools.pairwise] or with the
    backport, the demo raises nothing and prints these six lines.  More
    generally its loop prints one line for each list of integers it is
    given and never raises. *)
Theorem demo_output :
  (forall imp,
     main imp
     = ([ "[1, 2, 3, 4]: ascending=True (strict=True), descending=False";
          "[1, 3, 2, 4]: ascending=False (strict=False), descending=False";
          "[5, 5, 5]: ascending=True (strict=False), descending=True";
          "[]: ascending=True (strict=True), descending=True";
          "[42]: ascending=True (strict=True), descending=True";
          "[10, 8, 8, 5, 2]: ascending=False (strict=False), descending=True"
        ]%string, None))
  /\ (forall imp lists printed,
        exists lines,
          demo_loop imp lists printed = (printed ++ lines, None)
          /\ List.length lines = List.length lists).
Proof.
  split.
  - intros []; vm_compute; reflexivity.
  - intros imp lists printed. apply demo_loop_prints_every_list.
Qed.

(* ------------------------------------------------------------------ *)
(** ** Removing items *)

Lemma scan_true_Sorted (rel : value -> value -> result bool) (key : key_fn)
    (lst : list value) :
  scan rel key lst = Ok true
  <-> Sorted (fun x y => relation_gives key rel x y true) lst.
Proof.
  unfold scan. induction lst as [|a [|b l] IH].
  - split; [constructor | reflexivity].
  - split; [repeat constructor | reflexivity].
  - rewrite itertools_pairwise_cons2. cbn [map].
    change (?c :: ?g) with ([] ++ c :: g) at 1.
    rewrite py_all_app_item, IH, keyed_compare_gives. split.
    + intros [_ [H Hs]]. constructor; [exact Hs|]. constructor. exact H.
    + intros H. inversion H as [|? ? Hs Hhd]; subst.
      inversion Hhd; subst. auto.
Qed.

Lemma select_In (keep : list bool) (lst : list value) (x : value) :
  In x (select keep lst) -> In x lst.
Proof.
  revert lst. induction keep as [|[|] keep IH]; intros [|a lst]; simpl;
    try contradiction.
  - intros [-> | H]; [left; reflexivity | right; apply IH, H].
  - intros H. right. apply IH, H.
Qed.

Lemma StronglySorted_select (R : value -> value -> Prop) (keep : list bool)
    (lst : list value) :
  StronglySorted R lst -> StronglySorted R (select keep lst).
Proof.
  intros H. revert keep.
  induction H as [|a l Hs IH Hall]; intros [|[|] keep]; simpl;
    try constructor; try apply IH.
  rewrite Forall_forall in *. intros x Hx. apply Hall.
  apply (select_In keep l x Hx).
Qed.

Lemma scan_true_select (op : cmp_op) (key : key_fn) (keep : list bool)
    (lst : list value) :
  scan (py_compare op) key lst = Ok true ->
  scan (py_compare op) key (select keep lst) = Ok true.
Proof.
  rewrite !scan_true_Sorted. intros H.
  apply StronglySorted_Sorted, StronglySorted_select.
  apply Sorted_StronglySorted; [|exact H].
  intros x y z. apply relation_gives_trans.
Qed.

(** X14.  Removing items from a sequence that passes a check leaves a
    sequence that passes it, for any choice of the positions to keep
    (so also when only one of two equal items goes), provided
    [itertools.pairwise] is in use or neither sequence starts with
    [None] followed by more items. *)
Theorem passing_check_survives_removal (imp : import_outcome)
    (lst : list value) (keep : list bool) (strict : bool)
    (key : option key_fn) :
  sentinel_clash imp lst = false ->
  sentinel_clash imp (select keep lst) = false ->
  (is_sorted_ascending imp lst strict key = Ok true ->
   is_sorted_ascending imp (select keep lst) strict key = Ok true)
  /\ (is_sorted_descending imp lst strict key = Ok true ->
      is_sorted_descending imp (select keep lst) strict key = Ok true).
Proof.
  intros H Hs.
  rewrite (is_sorted_ascending_scan _ _ strict key H).
  rewrite (is_sorted_ascending_scan _ _ strict key Hs).
  rewrite (is_sorted_descending_scan _ _ strict key H).
  rewrite (is_sorted_descending_scan _ _ strict key Hs).
  rewrite compare_ascending_op, compare_descending_op.
  split; apply scan_true_select.
Qed.

Lemma passing_check_survives_removal_witness :
  is_sorted_ascending ImportError
    (select [true; true; false; true] [VInt 1; VInt 2; VInt 2; VInt 3])
    false None = Ok true.
Proof.
  apply (proj1 (passing_check_survives_removal ImportError
                  [VInt 1; VInt 2; VInt 2; VInt 3]
                  [true; true; false; true] false None eq_refl eq_refl)).
  reflexivity.
Defined.
